(** * A shallow embedding of the LangChain + MCP tool server and its clients

  The development follows three source files:

  - [server.py]: the four tools ([calculate], [chat_with_gemma3],
    [web_search], [summarize_text]) and the registry handed to FastMCP;
  - [advanced_gradio.py]: the asynchronous bridge [call_tool_async], the
    blocking adapter [call_tool_sync], the tab handlers and the multi-tool
    router [multi_tool_response];
  - [client.py]: the dispatch performed by the console loop of [main].

  Modelling conventions.

  - A Python [str] is a [string]: the bytes of its UTF-8 encoding.
    Whitespace is Unicode's, as [str.strip] and [str.split] know it, read
    off the encoded bytes.  Letter case is that of the ASCII range, which is
    where every literal the sources compare against lives.
  - Python [int] is [Z]; its conversion to text raises above 4300 digits,
    the interpreter's limit.
    Python [float] is an IEEE binary64 value, written as a [spec_float].
  - A call that may raise returns a [PyResult]; [try]/[except] is a match
    on it, clause by clause in source order.
  - What the program reads from outside (the builtin [eval], the session
    with the tool host, the worker thread's timing) enters as an explicit
    argument, so that every theorem quantifies over it.  [PyArith] gives
    the builtin's answers on integer arithmetic, for the statements about
    particular expressions.
  - [Spec] holds the definitions that follow the wording of the
    specification, where it is compared with the code. *)

From Stdlib Require Import String Ascii List ZArith Lia Bool DecimalString.
From Stdlib Require Import Floats.SpecFloat.
Import ListNotations.

Local Open Scope string_scope.
Local Open Scope Z_scope.

(** ** Python string primitives *)

Module PyStr.

Definition tab : ascii := "009"%char.

(** The whitespace characters written on one byte: TAB, LF, VT, FF, CR, the
    four separators FS GS RS US, and SPACE. *)
Definition is_space (c : ascii) : bool :=
  let n := nat_of_ascii c in
  ((9 <=? n)%nat && (n <=? 13)%nat) || ((28 <=? n)%nat && (n <=? 32)%nat).

(** The whitespace characters written on two bytes: U+0085 and U+00A0. *)
Definition is_space2 (b1 b2 : nat) : bool :=
  ((b1 =? 194) && ((b2 =? 133) || (b2 =? 160)))%nat.

(** The whitespace characters written on three bytes: U+1680, U+2000 to
    U+200A, U+2028, U+2029, U+202F, U+205F and U+3000. *)
Definition is_space3 (b1 b2 b3 : nat) : bool :=
  (((b1 =? 225) && (b2 =? 154) && (b3 =? 128))
   || ((b1 =? 226) && (b2 =? 128)
       && (((128 <=? b3) && (b3 <=? 138)) || (b3 =? 168) || (b3 =? 169) || (b3 =? 175)))
   || ((b1 =? 226) && (b2 =? 129) && (b3 =? 159))
   || ((b1 =? 227) && (b2 =? 128) && (b3 =? 128)))%nat.

(** [str.isspace] on the character [s] starts with: the number of bytes of
    that character when it is whitespace, [0] when it is not or when [s] is
    empty. *)
Definition space_width (s : string) : nat :=
  match s with
  | EmptyString => 0
  | String c r =>
      if is_space c then 1
      else
        match r with
        | EmptyString => 0
        | String d r' =>
            if is_space2 (nat_of_ascii c) (nat_of_ascii d) then 2
            else
              match r' with
              | EmptyString => 0
              | String e _ =>
                  if is_space3 (nat_of_ascii c) (nat_of_ascii d) (nat_of_ascii e)
                  then 3 else 0
              end
        end
  end.

(** A byte of the ASCII range. *)
Definition is_ascii (c : ascii) : bool := (nat_of_ascii c <? 128)%nat.

(** A text that is empty or starts in the ASCII range. *)
Definition ascii_headed (t : string) : Prop :=
  match t with
  | EmptyString => True
  | String e _ => is_ascii e = true
  end.

(** [str.lower] on one character. *)
Definition lower_char (c : ascii) : ascii :=
  let n := nat_of_ascii c in
  if ((65 <=? n)%nat && (n <=? 90)%nat)%bool then ascii_of_nat (n + 32) else c.

Fixpoint lower (s : string) : string :=
  match s with
  | EmptyString => EmptyString
  | String c r => String (lower_char c) (lower r)
  end.

(** [s.startswith(p)]. *)
Definition startswith (s p : string) : bool := String.prefix p s.

(** [p in s] for strings. *)
Fixpoint contains (s p : string) : bool :=
  String.prefix p s ||
  match s with
  | EmptyString => false
  | String _ r => contains r p
  end.

(** [s[n:]] for a non-negative literal [n]. *)
Fixpoint drop (n : nat) (s : string) : string :=
  match n, s with
  | O, _ => s
  | S _, EmptyString => EmptyString
  | S k, String _ r => drop k r
  end.

(** [s.replace(c, rep)] where the pattern is the single character [c]. *)
Fixpoint replace_char (c : ascii) (rep : string) (s : string) : string :=
  match s with
  | EmptyString => EmptyString
  | String a r =>
      if Ascii.eqb a c then rep ++ replace_char c rep r
      else String a (replace_char c rep r)
  end.

(** Truth value of a string: [not s] is [is_empty s]. *)
Definition is_empty (s : string) : bool :=
  match s with EmptyString => true | _ => false end.

(** [s.lstrip()]: the whitespace characters in front are passed over, each
    with all its bytes. *)
Fixpoint lstrip (s : string) : string :=
  match s with
  | EmptyString => EmptyString
  | String _ r =>
      match space_width s with
      | 0 => s
      | 1 => lstrip r
      | 2 => match r with String _ r2 => lstrip r2 | _ => EmptyString end
      | _ => match r with String _ (String _ r3) => lstrip r3 | _ => EmptyString end
      end%nat
  end.

(** [s.rstrip()]: [s] up to the first place from which only whitespace
    follows. *)
Fixpoint rstrip (s : string) : string :=
  match s with
  | EmptyString => EmptyString
  | String c r => if is_empty (lstrip s) then EmptyString else String c (rstrip r)
  end.

(** [s.strip()]. *)
Definition strip (s : string) : string := rstrip (lstrip s).

(** Whether [s] starts inside a word: it is not empty and does not start
    with a whitespace character. *)
Definition in_word (s : string) : bool :=
  match s with
  | EmptyString => false
  | _ => (space_width s =? 0)%nat
  end.

(** [s.split()]: the maximal runs of non-whitespace characters, in order.
    A byte that is not the start of a whitespace character goes in front of
    the word that follows it, or is a word of its own when whitespace or
    the end follows. *)
Fixpoint split (s : string) : list string :=
  match s with
  | EmptyString => []
  | String c r =>
      match space_width s with
      | 0 =>
          if in_word r then
            match split r with
            | w :: ws => String c w :: ws
            | [] => [String c EmptyString]
            end
          else String c EmptyString :: split r
      | 1 => split r
      | 2 => match r with String _ r2 => split r2 | _ => [] end
      | _ => match r with String _ (String _ r3) => split r3 | _ => [] end
      end%nat
  end.

(** [sep.join(l)]. *)
Definition join (sep : string) (l : list string) : string := String.concat sep l.

(** The decimal digits of an [int], behind its sign.  This is [str(n)]
    where the interpreter prints [n]: see [PyInt.to_str] for its cap on the
    number of digits. *)
Definition of_Z (z : Z) : string := NilEmpty.string_of_int (Z.to_int z).

(** [l[:k]] and [l[k:]] with Python's treatment of negative and
    out-of-range bounds. *)
Definition slice_to {A} (l : list A) (k : Z) : list A :=
  let n := Z.of_nat (List.length l) in
  let stop := if k <? 0 then Z.max 0 (n + k) else Z.min n k in
  firstn (Z.to_nat stop) l.

Definition slice_from {A} (l : list A) (k : Z) : list A :=
  let n := Z.of_nat (List.length l) in
  let start := if k <? 0 then Z.max 0 (n + k) else Z.min n k in
  skipn (Z.to_nat start) l.

(** A byte that continues a character written on several bytes. *)
Definition is_continuation (c : ascii) : bool :=
  let n := nat_of_ascii c in
  ((128 <=? n)%nat && (n <=? 191)%nat)%bool.

(** [len(s)]: the number of characters. *)
Fixpoint len (s : string) : nat :=
  match s with
  | EmptyString => O
  | String c r => if is_continuation c then len r else S (len r)
  end.

(** [s[:n]] for a non-negative literal [n]: the first [n] characters, each
    with the bytes that continue it. *)
Fixpoint take (n : nat) (s : string) : string :=
  match s with
  | EmptyString => EmptyString
  | String c r =>
      if is_continuation c then String c (take n r)
      else
        match n with
        | O => EmptyString
        | S k => String c (take k r)
        end
  end.

Definition newline : string := String "010" EmptyString.

(** A word, as [split] returns them: not empty, and no whitespace
    character starts anywhere in it. *)
Fixpoint no_space (w : string) : bool :=
  match w with
  | EmptyString => true
  | String _ r => (space_width w =? 0)%nat && no_space r
  end.

Definition is_word (w : string) : bool := negb (is_empty w) && no_space w.

(** [s * n] for a string [s]. *)
Fixpoint times (s : string) (n : nat) : string :=
  match n with
  | O => EmptyString
  | S k => s ++ times s k
  end.

End PyStr.

(** ** Results of calls that may raise *)

(** The exceptions the tools distinguish, by the [except] clause that
    receives them; all are subclasses of [Exception].  An interrupt that
    arrives from outside while a tool runs is not part of the model. *)
Inductive exn : Type :=
| ZeroDivisionError (msg : string)
| ValueError (msg : string)
| SyntaxError (msg : string)
| OtherException (msg : string).

(** [str(e)]. *)
Definition exn_text (e : exn) : string :=
  match e with
  | ZeroDivisionError msg | ValueError msg | SyntaxError msg | OtherException msg => msg
  end.

Inductive PyResult (A : Type) : Type :=
| Returned (a : A)
| Raised (e : exn).

Arguments Returned {A} a.
Arguments Raised {A} e.

Definition bind {A B} (r : PyResult A) (k : A -> PyResult B) : PyResult B :=
  match r with
  | Returned a => k a
  | Raised e => Raised e
  end.

Notation "x <- r ;; k" := (bind r (fun x => k))
  (at level 61, r at next level, right associativity).

(** ** Python integers as text *)

Module PyInt.

(** [sys.int_info.default_max_str_digits]. *)
Definition max_str_digits : Z := 4300.

(** Whether [z] has no more decimal digits than that, the sign apart. *)
Definition fits (z : Z) : bool := Z.abs z <? 10 ^ max_str_digits.

Definition limit_message : string :=
  "Exceeds the limit (4300 digits) for integer string conversion; use sys.set_int_max_str_digits() to increase the limit".

(** [str(z)] and [format(z, '')]: an [int] of more digits than the limit
    raises [ValueError]. *)
Definition to_str (z : Z) : PyResult string :=
  if fits z then Returned (PyStr.of_Z z) else Raised (ValueError limit_message).

End PyInt.

(** ** Python floats: [is_integer], [int] and the [g] presentation *)

Module PyFloat.

(** [x.is_integer()]. *)
Definition is_integer (f : spec_float) : bool :=
  match f with
  | S754_zero _ => true
  | S754_finite _ m e => (0 <=? e) || (Z.pos m mod 2 ^ (- e) =? 0)
  | S754_infinity _ | S754_nan => false
  end.

(** [int(x)]: truncation toward zero; an infinity raises [OverflowError], a
    NaN raises [ValueError]. *)
Definition to_int (f : spec_float) : PyResult Z :=
  match f with
  | S754_zero _ => Returned 0
  | S754_finite s m e =>
      let a := if 0 <=? e then Z.pos m * 2 ^ e else Z.pos m / 2 ^ (- e) in
      Returned (if s then - a else a)
  | S754_infinity _ => Raised (OtherException "cannot convert float infinity to integer")
  | S754_nan => Raised (ValueError "cannot convert float NaN to integer")
  end.

(** The magnitude [m * 2^e] as an exact fraction. *)
Definition ratio (m : positive) (e : Z) : Z * Z :=
  if 0 <=? e then (Z.pos m * 2 ^ e, 1) else (Z.pos m, 2 ^ (- e)).

(** The fraction divided by [10^k]. *)
Definition scale (nd : Z * Z) (k : Z) : Z * Z :=
  let (n, d) := nd in
  if 0 <=? k then (n, d * 10 ^ k) else (n * 10 ^ (- k), d).

Definition at_least_pow10 (nd : Z * Z) (k : Z) : bool :=
  let (n, d) := scale nd k in d <=? n.

Fixpoint climb (fuel : nat) (nd : Z * Z) (k : Z) : Z :=
  match fuel with
  | O => k
  | S fuel' => if at_least_pow10 nd (k + 1) then climb fuel' nd (k + 1) else k
  end.

(** The decimal exponent of the fraction: a low estimate from the binary
    logarithms, then the few steps up that remain. *)
Definition decimal_exponent (nd : Z * Z) : Z :=
  let (n, d) := nd in
  climb 6 nd ((Z.log2 n - Z.log2 d - 1) * 30103 / 100000 - 2).

Definition round_half_even (nd : Z * Z) : Z :=
  let (n, d) := nd in
  let q := n / d in
  match 2 * (n mod d) ?= d with
  | Lt => q
  | Gt => q + 1
  | Eq => if Z.even q then q else q + 1
  end.

(** The [p] significant digits, correctly rounded, and the position of the
    decimal point in front of them. *)
Definition significant (p : Z) (nd : Z * Z) : Z * Z :=
  let x := decimal_exponent nd in
  let d := round_half_even (scale nd (x - (p - 1))) in
  if 10 ^ p <=? d then (10 ^ (p - 1), x + 2) else (d, x + 1).

Fixpoint strip_zeros (l : list ascii) : list ascii :=
  match l with
  | "0"%char :: r => strip_zeros r
  | _ => l
  end.

Definition strip_trailing_zeros (s : string) : string :=
  string_of_list_ascii (rev (strip_zeros (rev (list_ascii_of_string s)))).

Fixpoint zeros (n : nat) : string :=
  match n with
  | O => EmptyString
  | S k => String "0" (zeros k)
  end.

Definition exponent_text (x : Z) : string :=
  let a := PyStr.of_Z (Z.abs x) in
  (if x <? 0 then "-" else "+") ++ (if Z.abs x <? 10 then "0" ++ a else a).

(** Where the point goes: exponent notation when the decimal exponent is
    below -4 or not below the precision, positional notation otherwise. *)
Definition layout (p : Z) (digits : string) (decpt : Z) : string :=
  let nd := Z.of_nat (String.length digits) in
  if (decpt <=? -4) || (p <? decpt) then
    substring 0 1 digits
      ++ (if 1 <? nd then "." ++ PyStr.drop 1 digits else EmptyString)
      ++ "e" ++ exponent_text (decpt - 1)
  else if decpt <=? 0 then "0." ++ zeros (Z.to_nat (- decpt)) ++ digits
  else if nd <=? decpt then digits ++ zeros (Z.to_nat (decpt - nd))
  else substring 0 (Z.to_nat decpt) digits ++ "." ++ PyStr.drop (Z.to_nat decpt) digits.

(** [format(x, '.<p>g')]. *)
Definition format_g (p : Z) (f : spec_float) : string :=
  match f with
  | S754_nan => "nan"
  | S754_infinity s => if s then "-inf" else "inf"
  | S754_zero s => if s then "-0" else "0"
  | S754_finite s m e =>
      let (d, decpt) := significant p (ratio m e) in
      (if s then "-" else EmptyString) ++ layout p (strip_trailing_zeros (PyStr.of_Z d)) decpt
  end.

(** [float(z)] for an integer that a binary64 holds exactly. *)
Definition of_int (z : Z) : spec_float := binary_normalize 53 1024 z 0 false.

End PyFloat.

(** ** The results of [eval] *)

(** The objects [eval] can hand back, as far as the formatting code tells
    them apart: a [float], an [int] that is not a [bool], and anything else,
    given by what [format(obj, '')] does with it: the text it produces, or
    the exception it raises (a tuple that holds an [int] of more than 4300
    digits, for one). *)
Inductive value : Type :=
| VInt (z : Z)
| VFloat (f : spec_float)
| VOther (printed : PyResult string).

(** ** A reference semantics of [eval] on integer arithmetic

    The builtin is not part of the sources.  [PyArith.eval] gives its result
    on expressions built from decimal integer literals, parentheses, unary
    signs and the operators [+ - * / // % **]; it answers [None] on anything
    else rather than guess. *)

Module PyArith.

Inductive token : Type :=
| TNum (z : Z)
| TPlus | TMinus | TStar | TSlash | TDSlash | TPercent | TPow
| TLParen | TRParen.

Definition digit_of (c : ascii) : option Z :=
  let n := nat_of_ascii c in
  if ((48 <=? n)%nat && (n <=? 57)%nat)%bool then Some (Z.of_nat (n - 48)) else None.

(** Reads the digits that continue a literal whose value so far is [acc]. *)
Fixpoint lex_number (acc : Z) (s : string) : Z * string :=
  match s with
  | String c r =>
      match digit_of c with
      | Some d => lex_number (10 * acc + d) r
      | None => (acc, s)
      end
  | EmptyString => (acc, s)
  end.

Fixpoint lex (fuel : nat) (s : string) : option (list token) :=
  match fuel with
  | O => None
  | S fuel' =>
      let cons t r := option_map (cons t) (lex fuel' r) in
      match s with
      | EmptyString => Some []
      | String "009" r => lex fuel' r
      | String "+" r => cons TPlus r
      | String "-" r => cons TMinus r
      | String "*" (String "*" r) => cons TPow r
      | String "*" r => cons TStar r
      | String "/" (String "/" r) => cons TDSlash r
      | String "/" r => cons TSlash r
      | String "%" r => cons TPercent r
      | String "(" r => cons TLParen r
      | String ")" r => cons TRParen r
      | String c r =>
          match digit_of c with
          | Some 0 =>
              (* a literal that starts with 0 is the literal 0 *)
              match r with
              | String c' _ =>
                  match digit_of c' with
                  | Some _ => None
                  | None => cons (TNum 0) r
                  end
              | EmptyString => cons (TNum 0) r
              end
          | Some d => let (z, rest) := lex_number d r in cons (TNum z) rest
          | None => None
          end
      end
  end.

Inductive binop : Type := Add | Sub | Mul | Div | FloorDiv | Mod | Pow.

Inductive expr : Type :=
| Num (z : Z)
| UPlus (e : expr)
| UMinus (e : expr)
| Bin (op : binop) (l r : expr).

Definition parsed : Type := option (expr * list token).

(** The grammar of Python's arithmetic expressions:
    sum ::= product (('+'|'-') product)*,
    product ::= factor (('*'|'/'|'//'|'%') factor)*,
    factor ::= ('+'|'-') factor | power,
    power ::= atom ['**' factor],
    atom ::= NUMBER | '(' sum ')'. *)
Fixpoint parse_sum (fuel : nat) (ts : list token) : parsed :=
  match fuel with
  | O => None
  | S f =>
      match parse_product f ts with
      | Some (l, rest) => parse_sum_rest f l rest
      | None => None
      end
  end
with parse_sum_rest (fuel : nat) (l : expr) (ts : list token) : parsed :=
  match fuel with
  | O => None
  | S f =>
      let next op r :=
        match parse_product f r with
        | Some (e, rest) => parse_sum_rest f (Bin op l e) rest
        | None => None
        end in
      match ts with
      | TPlus :: r => next Add r
      | TMinus :: r => next Sub r
      | _ => Some (l, ts)
      end
  end
with parse_product (fuel : nat) (ts : list token) : parsed :=
  match fuel with
  | O => None
  | S f =>
      match parse_factor f ts with
      | Some (l, rest) => parse_product_rest f l rest
      | None => None
      end
  end
with parse_product_rest (fuel : nat) (l : expr) (ts : list token) : parsed :=
  match fuel with
  | O => None
  | S f =>
      let next op r :=
        match parse_factor f r with
        | Some (e, rest) => parse_product_rest f (Bin op l e) rest
        | None => None
        end in
      match ts with
      | TStar :: r => next Mul r
      | TSlash :: r => next Div r
      | TDSlash :: r => next FloorDiv r
      | TPercent :: r => next Mod r
      | _ => Some (l, ts)
      end
  end
with parse_factor (fuel : nat) (ts : list token) : parsed :=
  match fuel with
  | O => None
  | S f =>
      match ts with
      | TPlus :: r =>
          match parse_factor f r with
          | Some (e, rest) => Some (UPlus e, rest)
          | None => None
          end
      | TMinus :: r =>
          match parse_factor f r with
          | Some (e, rest) => Some (UMinus e, rest)
          | None => None
          end
      | _ => parse_power f ts
      end
  end
with parse_power (fuel : nat) (ts : list token) : parsed :=
  match fuel with
  | O => None
  | S f =>
      match parse_atom f ts with
      | Some (b, TPow :: r) =>
          match parse_factor f r with
          | Some (e, rest) => Some (Bin Pow b e, rest)
          | None => None
          end
      | other => other
      end
  end
with parse_atom (fuel : nat) (ts : list token) : parsed :=
  match fuel with
  | O => None
  | S f =>
      match ts with
      | TNum z :: r => Some (Num z, r)
      | TLParen :: r =>
          match parse_sum f r with
          | Some (e, TRParen :: rest) => Some (e, rest)
          | _ => None
          end
      | _ => None
      end
  end.

Definition parse (s : string) : option expr :=
  match lex (S (String.length s)) s with
  | Some ts =>
      match parse_sum (8 * S (List.length ts)) ts with
      | Some (e, []) => Some e
      | _ => None
      end
  | None => None
  end.

Definition exact_in_float (z : Z) : bool := Z.abs z <=? 2 ^ 53.

(** One operator on two [int] operands.  The wording of the message of a
    [ZeroDivisionError] varies with the operator and the interpreter; no
    caller in the sources reads it. *)
Definition apply (op : binop) (a b : Z) : option (PyResult value) :=
  match op with
  | Add => Some (Returned (VInt (a + b)))
  | Sub => Some (Returned (VInt (a - b)))
  | Mul => Some (Returned (VInt (a * b)))
  | Div =>
      if b =? 0 then Some (Raised (ZeroDivisionError "division by zero"))
      else if exact_in_float a && exact_in_float b then
        Some (Returned (VFloat (SFdiv 53 1024 (PyFloat.of_int a) (PyFloat.of_int b))))
      else None
  | FloorDiv =>
      if b =? 0 then Some (Raised (ZeroDivisionError "division by zero"))
      else Some (Returned (VInt (a / b)))
  | Mod =>
      if b =? 0 then Some (Raised (ZeroDivisionError "division by zero"))
      else Some (Returned (VInt (a mod b)))
  | Pow => if 0 <=? b then Some (Returned (VInt (a ^ b))) else None
  end.

(** Operands are evaluated left to right; the first exception wins; an
    operand that is not an [int] leaves the fragment. *)
Fixpoint run (e : expr) : option (PyResult value) :=
  match e with
  | Num z => Some (Returned (VInt z))
  | UPlus a =>
      match run a with
      | Some (Returned (VInt x)) => Some (Returned (VInt x))
      | Some (Raised x) => Some (Raised x)
      | _ => None
      end
  | UMinus a =>
      match run a with
      | Some (Returned (VInt x)) => Some (Returned (VInt (- x)))
      | Some (Raised x) => Some (Raised x)
      | _ => None
      end
  | Bin op l r =>
      match run l with
      | Some (Returned (VInt a)) =>
          match run r with
          | Some (Returned (VInt b)) => apply op a b
          | Some (Raised x) => Some (Raised x)
          | _ => None
          end
      | Some (Raised x) => Some (Raised x)
      | _ => None
      end
  end.

Definition eval (s : string) : option (PyResult value) :=
  match parse s with
  | Some e => run e
  | None => None
  end.

End PyArith.

(** ** Decoded JSON and its subscripts *)

Module PyJson.

(** What [response.json()] returns: [None], [bool], [int], [float], [str],
    [list], or a [dict] with its keys in order and each key bound once. *)
#[warnings="-register-all"]
Inductive json : Type :=
| JNull
| JBool (b : bool)
| JInt (z : Z)
| JFloat (f : spec_float)
| JStr (s : string)
| JArr (items : list json)
| JObj (fields : list (string * json)).

Fixpoint field (key : string) (fields : list (string * json)) : option json :=
  match fields with
  | [] => None
  | (k, v) :: rest => if String.eqb k key then Some v else field key rest
  end.

(** [v[key]] for a [str] key: defined on a [dict] that has the key; [None]
    stands for the [KeyError] or [TypeError] raised otherwise. *)
Definition item (v : json) (key : string) : option json :=
  match v with
  | JObj fields => field key fields
  | _ => None
  end.

(** [v[0]]: the first element of a non-empty [list], the first character of
    a non-empty [str]; [None] stands for the [IndexError], [KeyError] or
    [TypeError] raised otherwise. *)
Definition first (v : json) : option json :=
  match v with
  | JArr (x :: _) => Some x
  | JStr (String c r) => Some (JStr (PyStr.take 1 (String c r)))
  | _ => None
  end.

End PyJson.

(** ** [server.py] *)

Module Server.

(** *** [calculate] *)

Definition dangerous_patterns : list string :=
  ["import"; "exec"; "eval"; "__"; "open"; "file"].

(** The two [replace] calls that clean the expression: [^] becomes [**],
    then every space character is removed. *)
Definition power_notation (expression : string) : string :=
  PyStr.replace_char "^" "**" expression.

Definition remove_spaces (expression : string) : string :=
  PyStr.replace_char " " EmptyString expression.

Definition clean (expression : string) : string :=
  remove_spaces (power_notation expression).

(** The [for] loop over the patterns: the first pattern found in the
    lowered expression, if any. *)
Fixpoint first_dangerous (patterns : list string) (lowered : string) : option string :=
  match patterns with
  | [] => None
  | pattern :: rest =>
      if PyStr.contains lowered pattern then Some pattern
      else first_dangerous rest lowered
  end.

Definition not_allowed (pattern : string) : string :=
  "Error: '" ++ pattern ++ "' not allowed in expressions".

(** What [calculate] has done when it reaches the line of [eval]: either it
    has returned already, or it is about to evaluate the cleaned expression. *)
Inductive checked : Type :=
| Answer (text : string)
| Evaluate (expression : string).

Definition check (expression : string) : checked :=
  let expression := clean expression in
  if PyStr.is_empty expression then Answer "Error: Empty expression"
  else
    match first_dangerous dangerous_patterns (PyStr.lower expression) with
    | Some pattern => Answer (not_allowed pattern)
    | None => Evaluate expression
    end.

(** The text of the result in the three branches of the formatting code:
    [int(result)] printed, [result] in the [.10g] presentation, [result]
    printed. *)
Definition result_text (result : value) : PyResult string :=
  match result with
  | VFloat f =>
      if PyFloat.is_integer f then
        z <- PyFloat.to_int f ;;
        PyInt.to_str z
      else Returned (PyFloat.format_g 10 f)
  | VInt z => PyInt.to_str z
  | VOther printed => printed
  end.

(** The formatting of the result, after [eval]. *)
Definition format_result (expression : string) (result : value) : PyResult string :=
  shown <- result_text result ;;
  Returned (expression ++ " = " ++ shown).

(** The names [safe_dict] binds for [eval]; [__builtins__] is bound to an
    empty dictionary. *)
Definition safe_dict : list string :=
  ["abs"; "round"; "min"; "max"; "sum";
   "sin"; "cos"; "tan"; "asin"; "acos"; "atan";
   "sqrt"; "log"; "log10"; "exp"; "pow";
   "pi"; "e"; "ceil"; "floor"; "__builtins__"].

Section Calculate.

(** [py_eval e] is the outcome of [eval(e, safe_dict)]. *)
Variable py_eval : string -> PyResult value.

(** The body of the [try] block. *)
Definition calculate_body (expression : string) : PyResult string :=
  match check expression with
  | Answer text => Returned text
  | Evaluate expression =>
      result <- py_eval expression ;;
      format_result expression result
  end.

(** The [except] clauses, in source order. *)
Definition calculate (expression : string) : PyResult string :=
  match calculate_body expression with
  | Returned text => Returned text
  | Raised (ZeroDivisionError _) => Returned "Error: Division by zero"
  | Raised (ValueError msg) => Returned ("Error: Invalid value - " ++ msg)
  | Raised (SyntaxError _) => Returned "Error: Invalid mathematical expression"
  | Raised (OtherException msg) => Returned ("Error: " ++ msg)
  end.

End Calculate.


(** [calculate] run on the reference semantics of [eval]; [None] when the
    cleaned expression is outside the fragment that semantics covers. *)
Definition calculate_ref (expression : string) : option (PyResult string) :=
  match check expression with
  | Answer text => Some (Returned text)
  | Evaluate e =>
      match PyArith.eval e with
      | Some outcome => Some (calculate (fun _ => outcome) expression)
      | None => None
      end
  end.

(** *** [summarize_text] *)

Definition summarize_text (text : string) (max_length : Z) : string :=
  let words := PyStr.split text in
  let n := Z.of_nat (List.length words) in
  if n <=? max_length then
    "Text is already short (" ++ PyStr.of_Z n ++ " words): " ++ text
  else
    let first_part := PyStr.join " " (PyStr.slice_to words (max_length / 2)) in
    let last_part := PyStr.join " " (PyStr.slice_from words (- max_length / 2)) in
    let summary := first_part ++ "... " ++ last_part in
    "Summary (" ++ PyStr.of_Z (Z.of_nat (List.length (PyStr.split summary)))
      ++ " words): " ++ summary.

Definition default_max_length : Z := 100.

(** *** The registry *)

(** A tool as [to_fastmcp] registers it: under the name of the decorated
    function, with its parameters. *)
Record Tool : Type := {
  name : string;
  parameters : list string
}.

Definition calculate_tool : Tool :=
  {| name := "calculate"; parameters := ["expression"] |}.
Definition chat_tool : Tool :=
  {| name := "chat_with_gemma3"; parameters := ["message"; "model"] |}.
Definition search_tool : Tool :=
  {| name := "web_search"; parameters := ["query"] |}.
Definition summarize_tool : Tool :=
  {| name := "summarize_text"; parameters := ["text"; "max_length"] |}.

Definition tools : list Tool :=
  [calculate_tool; chat_tool; search_tool; summarize_tool].

(** The names [list_tools] reports. *)
Definition list_tools : list string := map name tools.

(** *** [chat_with_gemma3] *)

(** The arguments of [requests.post]: the address, the [json] payload and
    the timeout in seconds. *)
Record request : Type := {
  url : string;
  payload_model : string;
  payload_messages : list (list (string * string));
  payload_stream : bool;
  timeout : Z
}.

(** The response: its status code, its body as text, and the body decoded
    by [response.json()], which raises when the body is not JSON. *)
Record response : Type := {
  status_code : Z;
  text : string;
  json : PyResult PyJson.json
}.

Inductive posted : Type :=
| Responded (r : response)
| PostRaised (msg : string).

Definition chat_request (message model : string) : request :=
  {| url := "http://localhost:11434/v1/chat/completions";
     payload_model := model;
     payload_messages := [[("role", "user"); ("content", message)]];
     payload_stream := false;
     timeout := 300 |}.

(** [result['choices'][0]['message']['content']]. *)
Definition first_content (result : PyJson.json) : option PyJson.json :=
  match PyJson.item result "choices" with
  | Some choices =>
      match PyJson.first choices with
      | Some choice =>
          match PyJson.item choice "message" with
          | Some message => PyJson.item message "content"
          | None => None
          end
      | None => None
      end
  | None => None
  end.

Section Chat.

(** [post r] is what [requests.post] does with the request [r]. *)
Variable post : request -> posted.

(** [lookup_error result] is [str(e)] for the exception that the subscripts
    raise on a body in which the path to the content is missing. *)
Variable lookup_error : PyJson.json -> string.

(** The value returned: the content as the body gives it, or a text that
    reports the error. *)
Definition chat_with_gemma3 (message model : string) : PyJson.json :=
  match post (chat_request message model) with
  | PostRaised msg => PyJson.JStr ("Error: " ++ msg)
  | Responded r =>
      if status_code r =? 200 then
        match json r with
        | Raised e => PyJson.JStr ("Error: " ++ exn_text e)
        | Returned result =>
            match first_content result with
            | Some content => content
            | None => PyJson.JStr ("Error: " ++ lookup_error result)
            end
        end
      else PyJson.JStr ("Error " ++ PyStr.of_Z (status_code r) ++ ": " ++ text r)
  end.

End Chat.

Definition default_model : string := "gemma3".

(** *** [web_search] *)

(** One search result: a [dict] from [str] to [str]. *)
Definition hit : Type := list (string * string).

(** What the search meets: the package is not installed, the search raises,
    or it yields the list of results. *)
Inductive ddgs : Type :=
| NotInstalled
| SearchRaised (msg : string)
| Results (results : list hit).

(** [result[key]]; a missing key raises [KeyError], whose text is the key
    between quotes. *)
Fixpoint get (result : hit) (key : string) : PyResult string :=
  match result with
  | [] => Raised (OtherException ("'" ++ key ++ "'"))
  | (k, v) :: rest => if String.eqb k key then Returned v else get rest key
  end.

(** The three lines the loop adds for the result numbered [i]. *)
Definition entry (i : Z) (result : hit) : PyResult string :=
  title <- get result "title" ;;
  body <- get result "body" ;;
  href <- get result "href" ;;
  Returned (PyStr.of_Z i ++ ". " ++ title ++ PyStr.newline
            ++ "   " ++ PyStr.take 200 body ++ "..." ++ PyStr.newline
            ++ "   Source: " ++ href ++ PyStr.newline ++ PyStr.newline).

(** The [for] loop over [enumerate(results, i)], as the text it adds. *)
Fixpoint entries (i : Z) (results : list hit) : PyResult string :=
  match results with
  | [] => Returned EmptyString
  | result :: rest =>
      here <- entry i result ;;
      after <- entries (i + 1) rest ;;
      Returned (here ++ after)
  end.

Definition search_header (query : string) : string :=
  "Search results for '" ++ query ++ "':" ++ PyStr.newline ++ PyStr.newline.

Definition web_search (search : string -> ddgs) (query : string) : string :=
  match search query with
  | NotInstalled => "Web search requires: pip install duckduckgo-search"
  | SearchRaised msg => "Search error: " ++ msg
  | Results [] => "No search results found."
  | Results results =>
      match entries 1 results with
      | Returned listed => search_header query ++ listed
      | Raised e => "Search error: " ++ exn_text e
      end
  end.

End Server.

(** ** [advanced_gradio.py] *)

Module Gradio.

Definition arguments : Type := list (string * string).

(** *** What a call meets outside the program *)

(** One item of [result.content]; an item without a [text] attribute
    carries the text of the [AttributeError] that reading it raises. *)
Inductive content_item : Type :=
| TextContent (text : string)
| NonText (attribute_error : string).

(** What the [try] block of [call_tool_async] meets: the session answers
    with a content list, or an [Exception] is raised on the way (spawning the
    host, the handshake, the call, leaving the two [async with] blocks), or
    something that is not an [Exception] is raised, such as a cancellation. *)
Inductive session_run : Type :=
| Responds (content : list content_item)
| Fails (msg : string)
| Aborts.

(** How a call ends: with a text, with an [Exception], or with an exception
    outside [Exception]. *)
Inductive completion : Type :=
| Result (text : string)
| Error (msg : string)
| Abort.

(** Everything one run of the worker thread depends on: the outcome of
    creating and closing the event loop, the session, and the time in
    milliseconds after which [thread_func] is over ([None]: it never is). *)
Record attempt : Type := {
  new_loop_error : option string;
  session : session_run;
  close_error : option string;
  elapsed_ms : option Z
}.

(** The state of the world the interface object [mcp] talks to. *)
Definition world : Type := string -> arguments -> attempt.

(** *** The bridge and its blocking adapter *)

Definition call_tool_async (run : session_run) : completion :=
  match run with
  | Responds content =>
      match content with
      | TextContent text :: _ =>
          if PyStr.is_empty text then Result "No response received" else Result text
      | NonText attribute_error :: _ => Result ("Error: " ++ attribute_error)
      | [] => Result "No response received"
      end
  | Fails msg => Result ("Error: " ++ msg)
  | Aborts => Abort
  end.

(** [run_async]: a new event loop, the coroutine run to completion, and
    [loop.close()] in the [finally] clause, whose exception replaces the
    outcome of the [try] block. *)
Definition run_async (a : attempt) : completion :=
  match new_loop_error a with
  | Some msg => Error msg
  | None =>
      let outcome := call_tool_async (session a) in
      match close_error a with
      | Some msg => Error msg
      | None => outcome
      end
  end.

Definition queue : Type := list (string * string).

(** [thread_func], as its effect on [result_queue]; an exception outside
    [Exception] ends the thread with nothing put. *)
Definition thread_func (a : attempt) (result_queue : queue) : queue :=
  match run_async a with
  | Result result => (result_queue ++ [("success", result)])%list
  | Error msg => (result_queue ++ [("error", msg)])%list
  | Abort => result_queue
  end.

Definition timeout_ms : Z := 300 * 1000.

(** [thread.is_alive()] after [thread.join(timeout=300)]. *)
Definition is_alive (a : attempt) : bool :=
  match elapsed_ms a with
  | Some t => timeout_ms <=? t
  | None => true
  end.

(** [Queue.get_nowait]: the oldest item, or [None] for [queue.Empty]. *)
Definition get_nowait (q : queue) : option (string * string) :=
  match q with
  | item :: _ => Some item
  | [] => None
  end.

Definition timeout_text : string := "⏱️ Timeout: Request took too long".
Definition no_response_text : string := "❌ No response received".
Definition error_mark : string := "❌ ".

Section Interface.

Variable mcp : world.

Definition call_tool_sync (tool_name : string) (args : arguments) : string :=
  let a := mcp tool_name args in
  let result_queue : queue := [] in
  if is_alive a then timeout_text
  else
    match get_nowait (thread_func a result_queue) with
    | Some (status, result) =>
        if String.eqb status "success" then result else error_mark ++ result
    | None => no_response_text
    end.

(** *** The tab handlers *)

Definition history : Type := list (string * string).

Definition chat_response (message : string) (h : history) : history * string :=
  if PyStr.is_empty (PyStr.strip message) then (h, EmptyString)
  else
    let result := call_tool_sync "chat_with_gemma3" [("message", message)] in
    ((h ++ [(message, result)])%list, EmptyString).

Definition calculate (expression : string) : string :=
  if PyStr.is_empty (PyStr.strip expression) then "Please enter a mathematical expression"
  else call_tool_sync "calculate" [("expression", expression)].

Definition web_search (query : string) : string :=
  if PyStr.is_empty (PyStr.strip query) then "Please enter a search query"
  else call_tool_sync "web_search" [("query", query)].

Definition summarize (text : string) : string :=
  if PyStr.is_empty (PyStr.strip text) then "Please enter text to summarize"
  else call_tool_sync "summarize_text" [("text", text)].

Definition calc_marker : string := "🧮 ".
Definition search_marker : string := "🔍 ".
Definition summarize_marker : string := "📝 ".
Definition chat_marker : string := "🤖 ".

(** *** The multi-tool router *)

Definition multi_tool_response (message : string) (h : history) : history * string :=
  if PyStr.is_empty (PyStr.strip message) then (h, EmptyString)
  else if PyStr.startswith message "calc:" then
    let result := calculate (PyStr.strip (PyStr.drop 5 message)) in
    ((h ++ [(message, (calc_marker ++ result)%string)])%list, EmptyString)
  else if PyStr.startswith message "search:" then
    let result := web_search (PyStr.strip (PyStr.drop 7 message)) in
    ((h ++ [(message, (search_marker ++ result)%string)])%list, EmptyString)
  else if PyStr.startswith message "summarize:" then
    let result := summarize (PyStr.strip (PyStr.drop 10 message)) in
    ((h ++ [(message, (summarize_marker ++ result)%string)])%list, EmptyString)
  else
    let result := call_tool_sync "chat_with_gemma3" [("message", message)] in
    ((h ++ [(message, (chat_marker ++ result)%string)])%list, EmptyString).

End Interface.

(** *** A world in which the host answers at once

    The subprocess runs [server.py]: the tool named in the call is looked up
    in the registry and run on its arguments.  The two tools that go to the
    network are given by [chat] and [search]. *)

Section Hosted.

Variable py_eval : string -> PyResult value.
Variables chat search : string -> string.

Fixpoint lookup (key : string) (args : arguments) : option string :=
  match args with
  | [] => None
  | (k, v) :: rest => if String.eqb k key then Some v else lookup key rest
  end.

Definition tool_text (r : PyResult string) : string :=
  match r with
  | Returned text => text
  | Raised e => "Error executing tool: " ++ exn_text e
  end.

Definition run_tool (tool_name : string) (args : arguments) : option string :=
  if String.eqb tool_name (Server.name Server.calculate_tool) then
    option_map (fun e => tool_text (Server.calculate py_eval e)) (lookup "expression" args)
  else if String.eqb tool_name (Server.name Server.chat_tool) then
    option_map chat (lookup "message" args)
  else if String.eqb tool_name (Server.name Server.search_tool) then
    option_map search (lookup "query" args)
  else if String.eqb tool_name (Server.name Server.summarize_tool) then
    option_map (fun t => Server.summarize_text t Server.default_max_length)
               (lookup "text" args)
  else None.

Definition hosted : world :=
  fun tool_name args =>
    {| new_loop_error := None;
       session :=
         match run_tool tool_name args with
         | Some text => Responds [TextContent text]
         | None => Fails ("Unknown tool or missing argument: " ++ tool_name)
         end;
       close_error := None;
       elapsed_ms := Some 0 |}.

End Hosted.

End Gradio.

(** ** [client.py]: one turn of the console loop *)

Module Client.

(** What the loop body does with one line read from the console. *)
Inductive action : Type :=
| Quit
| Skip
| ListTools
| Usage (text : string)
| CallTool (label : string) (tool_name : string) (args : Gradio.arguments).

Fixpoint member (s : string) (l : list string) : bool :=
  match l with
  | [] => false
  | x :: r => String.eqb s x || member s r
  end.

Definition main_step (line : string) : action :=
  let user_input := PyStr.strip line in
  if member (PyStr.lower user_input) ["quit"; "exit"; "q"] then Quit
  else if PyStr.is_empty user_input then Skip
  else if String.eqb (PyStr.lower user_input) "tools" then ListTools
  else if PyStr.startswith (PyStr.lower user_input) "calc:" then
    let expression := PyStr.strip (PyStr.drop 5 user_input) in
    if PyStr.is_empty expression
    then Usage "Please provide an expression. Example: calc: 2+2"
    else CallTool "🧮 Calculator: " "calculate" [("expression", expression)]
  else if PyStr.startswith (PyStr.lower user_input) "search:" then
    let query := PyStr.strip (PyStr.drop 7 user_input) in
    if PyStr.is_empty query
    then Usage "Please provide a search query. Example: search: python programming"
    else CallTool "🔍 Searching: " "web_search" [("query", query)]
  else if PyStr.startswith (PyStr.lower user_input) "summarize:" then
    let text := PyStr.strip (PyStr.drop 10 user_input) in
    if PyStr.is_empty text
    then Usage "Please provide text to summarize. Example: summarize: <your text here>"
    else CallTool "📝 Summarizing: " "summarize_text" [("text", text)]
  else CallTool "🤖 Gemma3: " "chat_with_gemma3" [("message", user_input)].

(** *** The console program *)

(** What the console delivers while [input] waits: a line, or the interrupt
    signal.  The end of the list is the end of the input. *)
Inductive console_event : Type :=
| Typed (line : string)
| CtrlC.

(** What [session.call_tool] does: it returns a result with a content list,
    it raises an [Exception], or it is left by an exception outside
    [Exception], such as a cancellation. *)
Inductive call_outcome : Type :=
| Answered (content : list Gradio.content_item)
| CallRaised (msg : string)
| CallEscaped.

(** What is on its way out when control leaves a block: nothing, an
    [Exception] with its text, or an exception outside [Exception]. *)
Inductive flight : Type :=
| Landed
| Raising (msg : string)
| Escaping.

(** The host and the interpreter as the program meets them: the failure,
    if any, of opening the transport and the session, of [initialize], the
    outcome of [list_tools] (the name and description of each tool), the
    outcome of each call, which may depend on how many calls were answered
    before, and what leaving the two [async with] blocks makes of what is
    on its way out (they may raise on the way, or hand on another exception
    than the one that reached them).  [cancels_on_interrupt] tells how
    [asyncio.run] treats the interrupt signal: since Python 3.11 the first
    one asks the main task to cancel and the following ones raise
    [KeyboardInterrupt]; before, every one raises [KeyboardInterrupt]. *)
Record host : Type := {
  open_error : option string;
  initialize_error : option string;
  tools_result : string + list (string * string);
  call_tool : nat -> string -> Gradio.arguments -> call_outcome;
  leave : flight -> flight;
  cancels_on_interrupt : bool
}.

(** What a run leaves behind: the pieces of text written to the standard
    output in order, the calls of [session.call_tool] in order, what is on
    its way out at the end, and whether the task has been asked to cancel. *)
Record trace : Type := {
  stdout : list string;
  calls : list (string * Gradio.arguments);
  ending : flight;
  cancelling : bool
}.

(** [print(text)]. *)
Definition println (text : string) : string := text ++ PyStr.newline.

Definition prompt : string := PyStr.newline ++ "You: ".

Definition tool_lines (tools : list (string * string)) : list string :=
  map (fun t => println ("  - " ++ fst t ++ ": " ++ snd t)) tools.

(** [result.content[0].text]. *)
Definition first_text (content : list Gradio.content_item) : string + string :=
  match content with
  | [] => inl "list index out of range"
  | Gradio.TextContent text :: _ => inr text
  | Gradio.NonText attribute_error :: _ => inl attribute_error
  end.

(** The loop is left by [break]. *)
Definition ended (out : list string) (cancel : bool) : trace :=
  {| stdout := out; calls := []; ending := Landed; cancelling := cancel |}.

Definition before (out : list string) (called : list (string * Gradio.arguments))
           (t : trace) : trace :=
  {| stdout := out ++ stdout t; calls := called ++ calls t;
     ending := ending t; cancelling := cancelling t |}.

(** The [while True] loop, on the events still to come.  [made] counts the
    calls answered so far; [cancel] tells whether the task has been asked to
    cancel; [waiting] tells whether [input] has written its prompt and is
    waiting, which is the case after an interrupt that only asked the task
    to cancel.  A task asked to cancel is cancelled where it next waits:
    its next call of a tool is left by the cancellation. *)
Fixpoint chat_loop (h : host) (tools : list (string * string)) (made : nat)
         (cancel waiting : bool) (events : list console_event) : trace :=
  let say out := if waiting then out else prompt :: out in
  match events with
  | [] => ended (say [println (PyStr.newline ++ "Goodbye!")]) cancel
  | CtrlC :: rest =>
      if cancels_on_interrupt h && negb cancel
      then before (say []) [] (chat_loop h tools made true true rest)
      else ended (say [println (PyStr.newline ++ PyStr.newline ++ "Goodbye!")]) cancel
  | Typed line :: rest =>
      match main_step line with
      | Quit => ended (say [println "Goodbye!"]) cancel
      | Skip => before (say []) [] (chat_loop h tools made cancel false rest)
      | ListTools =>
          before (say (println "🔧 Available LangChain tools:" :: tool_lines tools)) []
                 (chat_loop h tools made cancel false rest)
      | Usage text =>
          before (say [println text]) [] (chat_loop h tools made cancel false rest)
      | CallTool label tool_name args =>
          let stopped how :=
            {| stdout := say [label]; calls := [(tool_name, args)];
               ending := how; cancelling := cancel |} in
          if cancel then stopped Escaping
          else
            match call_tool h made tool_name args with
            | CallEscaped => stopped Escaping
            | CallRaised msg => stopped (Raising msg)
            | Answered content =>
                match first_text content with
                | inl msg => stopped (Raising msg)
                | inr text =>
                    before (say [label; println text]) [(tool_name, args)]
                           (chat_loop h tools (S made) cancel false rest)
                end
            end
      end
  end.

Definition banner : list string :=
  [println (PyStr.newline ++ PyStr.times "=" 70);
   println "   LangChain + MCP Chat with Gemma3";
   println "   Commands:";
   println "   - Type normally to chat with Gemma3";
   println "   - 'calc: <expression>' for calculator";
   println "   - 'search: <query>' for web search";
   println "   - 'summarize: <text>' for text summarization";
   println "   - 'tools' to list all tools";
   println "   - 'quit' to exit";
   println (PyStr.times "=" 70)].

Definition error_line (msg : string) : string := println ("❌ Error: " ++ msg).


(** An exception raised before the loop. *)
Definition failed (msg : string) : trace :=
  {| stdout := []; calls := []; ending := Raising msg; cancelling := false |}.

(** Leaving the two [async with] blocks. *)
Definition leaving (h : host) (t : trace) : trace :=
  {| stdout := stdout t; calls := calls t;
     ending := leave h (ending t); cancelling := cancelling t |}.

(** The outer [except Exception] clause; the traceback goes to the standard
    error and is left out. *)
Definition report (t : trace) : trace :=
  match ending t with
  | Raising msg =>
      {| stdout := stdout t ++ [error_line msg]; calls := calls t;
         ending := Landed; cancelling := cancelling t |}
  | _ => t
  end.

(** [asyncio.run]: a task that was asked to cancel ends cancelled, however
    the coroutine ends, and [KeyboardInterrupt] is raised in its place. *)
Definition run (t : trace) : trace :=
  if cancelling t
  then {| stdout := stdout t; calls := calls t; ending := Escaping; cancelling := true |}
  else t.

(** [asyncio.run(main())]: the connection, the listing of the tools, the
    banner, the loop. *)
Definition main (h : host) (events : list console_event) : trace :=
  run
    (report
       match open_error h with
       | Some msg => failed msg
       | None =>
           leaving h
             (before [println "🔗 Connecting to LangChain MCP server..."] []
                match initialize_error h with
                | Some msg => failed msg
                | None =>
                    before [println "✅ Connected successfully!"] []
                      match tools_result h with
                      | inl msg => failed msg
                      | inr tools =>
                          before (println (PyStr.newline ++ "🔧 Available LangChain tools:")
                                    :: tool_lines tools ++ banner) []
                                 (chat_loop h tools 0 false false events)
                      end
                end)
       end).

End Client.

(** ** The specification's wording, for comparison with the code *)

Module Spec.

(** "Strips whitespace": every whitespace character is removed. *)
Fixpoint remove_whitespace (s : string) : string :=
  match s with
  | EmptyString => EmptyString
  | String c r =>
      match PyStr.space_width s with
      | 0 => String c (remove_whitespace r)
      | 1 => remove_whitespace r
      | 2 => match r with String _ r2 => remove_whitespace r2 | _ => EmptyString end
      | _ =>
          match r with
          | String _ (String _ r3) => remove_whitespace r3
          | _ => EmptyString
          end
      end%nat
  end.

(** The tagged parse of a message that the design notes describe. *)
Inductive command : Type :=
| Calc (rest : string)
| Search (rest : string)
| Summarize (rest : string)
| Chat (text : string).

(** The recognised prefixes in priority order, each with its command. *)
Definition prefixes : list (string * (string -> command)) :=
  [("calc:", Calc); ("search:", Search); ("summarize:", Summarize)].

(** Ordered prefix match, first match wins: the prefixes are looked for in
    [seen]; the remainder is cut from [message] and trimmed. *)
Fixpoint first_match (table : list (string * (string -> command)))
         (seen message : string) : command :=
  match table with
  | [] => Chat message
  | (p, make) :: rest =>
      if PyStr.startswith seen p
      then make (PyStr.strip (PyStr.drop (String.length p) message))
      else first_match rest seen message
  end.

(** [route normalise message]: the match is made on [normalise message]. *)
Definition route (normalise : string -> string) (message : string) : command :=
  first_match prefixes (normalise message) message.

Definition as_typed (s : string) : string := s.

(** What the multi-tool tab answers to a command. *)
Definition reply (mcp : Gradio.world) (c : command) : string :=
  match c with
  | Calc rest => Gradio.calc_marker ++ Gradio.calculate mcp rest
  | Search rest => Gradio.search_marker ++ Gradio.web_search mcp rest
  | Summarize rest => Gradio.summarize_marker ++ Gradio.summarize mcp rest
  | Chat text =>
      Gradio.chat_marker ++ Gradio.call_tool_sync mcp "chat_with_gemma3" [("message", text)]
  end.

(** What the console does with a command. *)
Definition console_act (c : command) : Client.action :=
  match c with
  | Calc rest =>
      if PyStr.is_empty rest
      then Client.Usage "Please provide an expression. Example: calc: 2+2"
      else Client.CallTool "🧮 Calculator: " "calculate" [("expression", rest)]
  | Search rest =>
      if PyStr.is_empty rest
      then Client.Usage "Please provide a search query. Example: search: python programming"
      else Client.CallTool "🔍 Searching: " "web_search" [("query", rest)]
  | Summarize rest =>
      if PyStr.is_empty rest
      then Client.Usage "Please provide text to summarize. Example: summarize: <your text here>"
      else Client.CallTool "📝 Summarizing: " "summarize_text" [("text", rest)]
  | Chat text => Client.CallTool "🤖 Gemma3: " "chat_with_gemma3" [("message", text)]
  end.

(** The last [k] elements of a list. *)
Definition lastn {A} (k : nat) (l : list A) : list A :=
  skipn (List.length l - k) l.

(** The summary as the specification words it: the first [max_length // 2]
    words and the last [max_length // 2] words, joined by an ellipsis. *)
Definition claimed_summary (text : string) (max_length : Z) : string :=
  let words := PyStr.split text in
  let half := Z.to_nat (max_length / 2) in
  PyStr.join " " (firstn half words) ++ "... " ++ PyStr.join " " (lastn half words).

(** "The formatted result": an integral float without a fractional part,
    another float to 10 significant digits, anything else as it prints. *)
Definition shown (v : value) : string :=
  match v with
  | VInt z => PyStr.of_Z z
  | VFloat f =>
      if PyFloat.is_integer f
      then PyStr.of_Z (match PyFloat.to_int f with Returned z => z | Raised _ => 0 end)
      else PyFloat.format_g 10 f
  | VOther (Returned text) => text
  | VOther (Raised _) => EmptyString
  end.

End Spec.

(** * Properties *)

(** ** Strings *)

Section StringFacts.

Lemma prefix_app (p s : string) :
  String.prefix p s = true <-> exists r, s = p ++ r.
Proof.
  revert s; induction p as [|a p IH]; intros s.
  - split; [intros _; exists s; reflexivity | destruct s; reflexivity].
  - destruct s as [|b s]; simpl.
    + split; [discriminate | intros [r Hr]; discriminate].
    + destruct (ascii_dec a b) as [->|Hab].
      * rewrite IH. split; intros [r Hr]; exists r.
        -- now rewrite Hr.
        -- now injection Hr.
      * split; [discriminate | intros [r Hr]; injection Hr; congruence].
Qed.

Lemma prefix_comparable (p q s : string) :
  String.prefix p s = true -> String.prefix q s = true ->
  String.prefix p q = true \/ String.prefix q p = true.
Proof.
  revert q s; induction p as [|a p IH]; intros q s Hp Hq.
  - left; destruct q; reflexivity.
  - destruct q as [|b q]; [right; reflexivity|].
    destruct s as [|c s]; [discriminate|].
    simpl in Hp, Hq |- *.
    destruct (ascii_dec a c) as [->|]; [|discriminate].
    destruct (ascii_dec b c) as [->|]; [|discriminate].
    destruct (ascii_dec c c); [|congruence].
    eauto.
Qed.

Lemma append_assoc (a b c : string) : (a ++ b) ++ c = a ++ b ++ c.
Proof. induction a; simpl; congruence. Qed.

Lemma append_empty_r (a : string) : a ++ EmptyString = a.
Proof. induction a; simpl; congruence. Qed.

Lemma contains_app (s p : string) :
  PyStr.contains s p = true <-> exists a b, s = a ++ p ++ b.
Proof.
  induction s as [|c s IH].
  - cbn [PyStr.contains]. rewrite orb_false_r, prefix_app. split.
    + intros [r Hr]. exists EmptyString, r. exact Hr.
    + intros [a [b H]]. destruct a; [exists b; exact H | discriminate].
  - cbn [PyStr.contains]. rewrite orb_true_iff, prefix_app, IH. split.
    + intros [[r Hr] | [a [b H]]].
      * exists EmptyString, r. exact Hr.
      * exists (String c a), b. simpl. now rewrite H.
    + intros [a [b H]]. destruct a as [|c' a].
      * left. exists b. exact H.
      * right. exists a, b. simpl in H. now injection H.
Qed.

Lemma lower_app (a b : string) :
  PyStr.lower (a ++ b) = PyStr.lower a ++ PyStr.lower b.
Proof. induction a; simpl; congruence. Qed.

Lemma replace_char_app (c : ascii) (rep a b : string) :
  PyStr.replace_char c rep (a ++ b)
  = PyStr.replace_char c rep a ++ PyStr.replace_char c rep b.
Proof.
  induction a as [|x a IH]; simpl; [reflexivity|].
  destruct (Ascii.eqb x c); rewrite IH; [symmetry; apply append_assoc | reflexivity].
Qed.

Lemma prefix_lower (p s : string) :
  String.prefix p s = true -> String.prefix (PyStr.lower p) (PyStr.lower s) = true.
Proof.
  rewrite !prefix_app. intros [r ->]. exists (PyStr.lower r). apply lower_app.
Qed.

Lemma lower_char_is_caret (c : ascii) :
  Ascii.eqb (PyStr.lower_char c) "^" = Ascii.eqb c "^".
Proof. destruct c as [[] [] [] [] [] [] [] []]; reflexivity. Qed.

Lemma lower_char_star : PyStr.lower_char "*" = "*"%char.
Proof. reflexivity. Qed.

End StringFacts.

(** ** The command router *)

Section Router.

Lemma typed_prefix_excluded (p q m : string) :
  String.prefix p (PyStr.lower m) = true ->
  String.prefix p (PyStr.lower q) = false ->
  String.prefix (PyStr.lower q) p = false ->
  String.prefix q m = false.
Proof.
  intros Hp Hpq Hqp. destruct (String.prefix q m) eqn:E; [|reflexivity].
  apply prefix_lower in E.
  destruct (prefix_comparable _ _ _ Hp E); congruence.
Qed.

Lemma other_prefix_excluded (p q s : string) :
  String.prefix p s = true ->
  String.prefix p q = false ->
  String.prefix q p = false ->
  String.prefix q s = false.
Proof.
  intros Hp Hpq Hqp. destruct (String.prefix q s) eqn:E; [|reflexivity].
  destruct (prefix_comparable _ _ _ Hp E); congruence.
Qed.

(** The cascade of [if]/[elif] in [multi_tool_response] is the ordered
    prefix match on the message as typed. *)
Lemma multi_tool_response_route (mcp : Gradio.world) (message : string) (h : Gradio.history) :
  Gradio.multi_tool_response mcp message h =
  if PyStr.is_empty (PyStr.strip message) then (h, EmptyString)
  else ((h ++ [(message, Spec.reply mcp (Spec.route Spec.as_typed message))])%list, EmptyString).
Proof.
  unfold Gradio.multi_tool_response, Spec.route, Spec.as_typed.
  cbn [Spec.first_match Spec.prefixes String.length].
  destruct (PyStr.is_empty (PyStr.strip message)); [reflexivity|].
  destruct (PyStr.startswith message "calc:"); [reflexivity|].
  destruct (PyStr.startswith message "search:"); [reflexivity|].
  destruct (PyStr.startswith message "summarize:"); reflexivity.
Qed.

(** The console loop makes the same match on the lowered line, once the
    words that leave the loop or list the tools are out of the way. *)
Lemma main_step_route (line : string) :
  Client.main_step line =
  let user_input := PyStr.strip line in
  if Client.member (PyStr.lower user_input) ["quit"; "exit"; "q"] then Client.Quit
  else if PyStr.is_empty user_input then Client.Skip
  else if String.eqb (PyStr.lower user_input) "tools" then Client.ListTools
  else Spec.console_act (Spec.route PyStr.lower user_input).
Proof.
  unfold Client.main_step, Spec.route.
  cbn [Spec.first_match Spec.prefixes String.length].
  cbv zeta.
  destruct (Client.member _ _); [reflexivity|].
  destruct (PyStr.is_empty (PyStr.strip line)); [reflexivity|].
  destruct (String.eqb _ "tools"); [reflexivity|].
  destruct (PyStr.startswith _ "calc:"); [reflexivity|].
  destruct (PyStr.startswith _ "search:"); [reflexivity|].
  destruct (PyStr.startswith _ "summarize:"); reflexivity.
Qed.

(** A message whose prefix is a recognised one up to letter case, but not
    exactly: typed as it is it matches nothing, lowered it matches. *)
Lemma case_variant_routes (message p : string) (make : string -> Spec.command) :
  In (p, make) Spec.prefixes ->
  PyStr.startswith (PyStr.lower message) p = true ->
  PyStr.startswith message p = false ->
  Spec.route Spec.as_typed message = Spec.Chat message /\
  Spec.route PyStr.lower message
  = make (PyStr.strip (PyStr.drop (String.length p) message)).
Proof.
  unfold PyStr.startswith, Spec.route, Spec.as_typed.
  intros Hin Hlow Htyped.
  cbn [Spec.first_match Spec.prefixes PyStr.startswith].
  unfold PyStr.startswith.
  destruct Hin as [E | [E | [E | []]]]; injection E as <- <-.
  - rewrite Htyped, Hlow.
    rewrite (typed_prefix_excluded "calc:" "search:" message Hlow eq_refl eq_refl).
    rewrite (typed_prefix_excluded "calc:" "summarize:" message Hlow eq_refl eq_refl).
    split; reflexivity.
  - rewrite Htyped, Hlow.
    rewrite (typed_prefix_excluded "search:" "calc:" message Hlow eq_refl eq_refl).
    rewrite (typed_prefix_excluded "search:" "summarize:" message Hlow eq_refl eq_refl).
    rewrite (other_prefix_excluded "search:" "calc:" _ Hlow eq_refl eq_refl).
    split; reflexivity.
  - rewrite Htyped, Hlow.
    rewrite (typed_prefix_excluded "summarize:" "calc:" message Hlow eq_refl eq_refl).
    rewrite (typed_prefix_excluded "summarize:" "search:" message Hlow eq_refl eq_refl).
    rewrite (other_prefix_excluded "summarize:" "calc:" _ Hlow eq_refl eq_refl).
    rewrite (other_prefix_excluded "summarize:" "search:" _ Hlow eq_refl eq_refl).
    split; reflexivity.
Qed.

(** C1, as the sources have it.  Both routers make the ordered prefix match
    calc:, search:, summarize:, chat, first match wins.  The multi-tool tab
    matches the message as typed, so a prefix that differs in letter case
    goes to the chat tool; the console matches the lowered line, so the same
    prefix reaches the prefixed tool. *)
Theorem command_router_dispatch :
  (forall (mcp : Gradio.world) (message : string) (h : Gradio.history),
      Gradio.multi_tool_response mcp message h =
      if PyStr.is_empty (PyStr.strip message) then (h, EmptyString)
      else ((h ++ [(message, Spec.reply mcp (Spec.route Spec.as_typed message))])%list, EmptyString))
  /\ (forall line : string,
      Client.main_step line =
      let user_input := PyStr.strip line in
      if Client.member (PyStr.lower user_input) ["quit"; "exit"; "q"] then Client.Quit
      else if PyStr.is_empty user_input then Client.Skip
      else if String.eqb (PyStr.lower user_input) "tools" then Client.ListTools
      else Spec.console_act (Spec.route PyStr.lower user_input))
  /\ (forall (message p : string) (make : string -> Spec.command),
      In (p, make) Spec.prefixes ->
      PyStr.startswith (PyStr.lower message) p = true ->
      PyStr.startswith message p = false ->
      Spec.route Spec.as_typed message = Spec.Chat message /\
      Spec.route PyStr.lower message
      = make (PyStr.strip (PyStr.drop (String.length p) message))).
Proof.
  split; [exact multi_tool_response_route|].
  split; [exact main_step_route | exact case_variant_routes].
Qed.

Lemma command_router_dispatch_witness :
  Spec.route Spec.as_typed "CALC: 2+2" = Spec.Chat "CALC: 2+2" /\
  Spec.route PyStr.lower "CALC: 2+2" = Spec.Calc "2+2".
Proof.
  apply (proj2 (proj2 command_router_dispatch) "CALC: 2+2" "calc:" Spec.Calc).
  - left; reflexivity.
  - reflexivity.
  - reflexivity.
Defined.

(** C1 as stated fails on the console: the line [CALC: 2+2] has a prefix
    that differs from [calc:] in letter case only, and it is sent to the
    calculator, not to the chat tool. *)
Lemma console_prefix_ignores_case :
  PyStr.startswith (PyStr.lower "CALC: 2+2") "calc:" = true /\
  PyStr.startswith "CALC: 2+2" "calc:" = false /\
  Client.main_step "CALC: 2+2"
  = Client.CallTool "🧮 Calculator: " "calculate" [("expression", "2+2")] /\
  Client.main_step "CALC: 2+2"
  <> Client.CallTool "🤖 Gemma3: " "chat_with_gemma3" [("message", "CALC: 2+2")].
Proof. repeat split; try reflexivity. discriminate. Qed.

End Router.

(** ** The registry *)

(** C2, as the sources have it: four tools, registered under the names of
    the decorated functions, in the order of the list given to FastMCP. *)
Theorem registry_names :
  Server.list_tools = ["calculate"; "chat_with_gemma3"; "web_search"; "summarize_text"]
  /\ List.length Server.tools = 4%nat
  /\ NoDup Server.list_tools.
Proof.
  split; [reflexivity|]. split; [reflexivity|].
  repeat constructor; simpl; intuition discriminate.
Qed.

(** C2 as stated fails: the registry has no tool called [chat], [search] or
    [summarize]. *)
Lemma registry_has_no_short_names :
  Server.list_tools <> ["calculate"; "chat"; "search"; "summarize"]
  /\ ~ In "chat" Server.list_tools
  /\ ~ In "search" Server.list_tools
  /\ ~ In "summarize" Server.list_tools.
Proof. repeat split; simpl; intuition discriminate. Qed.

(** Every tool the console asks for is one the registry holds. *)
Lemma console_calls_registered_tools (line label tool_name : string) (args : Gradio.arguments) :
  Client.main_step line = Client.CallTool label tool_name args ->
  In tool_name Server.list_tools.
Proof.
  rewrite main_step_route. cbv zeta.
  destruct (Client.member _ _); [discriminate|].
  destruct (PyStr.is_empty _); [discriminate|].
  destruct (String.eqb _ _); [discriminate|].
  destruct (Spec.route _ _) as [r | r | r | r]; simpl;
    try (destruct (PyStr.is_empty r); [discriminate|]);
    intros E; injection E as _ <- _; simpl; tauto.
Qed.

(** ** [calculate]: the guard *)

Section Guard.

(** Lowering and removing spaces commute with the rewriting of [^]. *)
Lemma lower_clean (e : string) :
  PyStr.lower (Server.clean e) = Server.power_notation (PyStr.lower (Server.remove_spaces e)).
Proof.
  unfold Server.clean, Server.power_notation, Server.remove_spaces.
  induction e as [|c e IH]; [reflexivity|].
  cbn [PyStr.replace_char].
  destruct (Ascii.eqb c "^") eqn:Ecaret.
  - apply Ascii.eqb_eq in Ecaret; subst c.
    cbn [Ascii.eqb Bool.eqb append PyStr.replace_char PyStr.lower].
    rewrite lower_char_star.
    change (PyStr.lower_char "^") with "^"%char.
    cbn [Ascii.eqb Bool.eqb PyStr.replace_char append].
    now rewrite IH.
  - cbn [PyStr.replace_char].
    destruct (Ascii.eqb c " ") eqn:Espace; [exact IH|].
    cbn [PyStr.lower PyStr.replace_char].
    rewrite lower_char_is_caret, Ecaret. now rewrite IH.
Qed.

Lemma caret_keeps_patterns (p : string) :
  In p Server.dangerous_patterns -> Server.power_notation p = p.
Proof.
  intros H. repeat (destruct H as [<- | H]; [reflexivity|]). destruct H.
Qed.

Lemma patterns_not_empty (p : string) :
  In p Server.dangerous_patterns -> p <> EmptyString.
Proof.
  intros H. repeat (destruct H as [<- | H]; [discriminate|]). destruct H.
Qed.

(** A pattern found once the spaces are gone is still found in the cleaned
    expression. *)
Lemma found_after_clean (e p : string) :
  In p Server.dangerous_patterns ->
  PyStr.contains (PyStr.lower (Server.remove_spaces e)) p = true ->
  PyStr.contains (PyStr.lower (Server.clean e)) p = true.
Proof.
  intros Hin. rewrite !contains_app. intros [a [b H]].
  exists (Server.power_notation a), (Server.power_notation b).
  rewrite lower_clean, H. unfold Server.power_notation.
  rewrite !replace_char_app. fold (Server.power_notation p).
  now rewrite (caret_keeps_patterns p Hin).
Qed.

Lemma first_dangerous_finds (patterns : list string) (lowered p : string) :
  In p patterns ->
  PyStr.contains lowered p = true ->
  exists q, Server.first_dangerous patterns lowered = Some q
            /\ In q patterns /\ PyStr.contains lowered q = true.
Proof.
  induction patterns as [|x rest IH]; intros Hin Hp; [destruct Hin|].
  cbn [Server.first_dangerous].
  destruct (PyStr.contains lowered x) eqn:Ex.
  - exists x. repeat split; [left; reflexivity | exact Ex].
  - destruct Hin as [-> | Hin]; [congruence|].
    destruct (IH Hin Hp) as [q [Hq [Hq1 Hq2]]].
    exists q. repeat split; [exact Hq | right; exact Hq1 | exact Hq2].
Qed.

Lemma star_free_head (x : ascii) (q : string) :
  PyStr.contains (String x q) "*" = false ->
  x <> "*"%char /\ PyStr.contains q "*" = false.
Proof.
  cbn [PyStr.contains String.prefix].
  destruct (ascii_dec "*" x) as [<- | Hx].
  - destruct q; discriminate.
  - intros H. split; [congruence | exact H].
Qed.

(** A prefix without [*] that the rewritten string has was there before. *)
Lemma caret_prefix_back (q s : string) :
  PyStr.contains q "*" = false ->
  String.prefix q (Server.power_notation s) = true -> String.prefix q s = true.
Proof.
  revert s; induction q as [|x q IH]; intros s Hstar Hpre.
  - destruct s; reflexivity.
  - apply star_free_head in Hstar. destruct Hstar as [Hx Hq].
    destruct s as [|c r]; [discriminate Hpre|].
    unfold Server.power_notation in Hpre. cbn [PyStr.replace_char] in Hpre.
    destruct (Ascii.eqb c "^").
    + cbn [append String.prefix] in Hpre.
      destruct (ascii_dec x "*"); [contradiction | discriminate].
    + cbn [String.prefix] in Hpre |- *.
      destruct (ascii_dec x c); [|discriminate].
      apply IH; assumption.
Qed.

(** An occurrence without [*] in the rewritten string was there before. *)
Lemma caret_contains_back (q s : string) :
  q <> EmptyString ->
  PyStr.contains q "*" = false ->
  PyStr.contains (Server.power_notation s) q = true -> PyStr.contains s q = true.
Proof.
  intros Hne Hstar. destruct q as [|x q]; [congruence|].
  destruct (star_free_head _ _ Hstar) as [Hx _].
  induction s as [|c r IH]; intros H.
  - discriminate H.
  - cbn [PyStr.contains]. apply orb_true_iff.
    unfold Server.power_notation in H. cbn [PyStr.replace_char] in H.
    destruct (Ascii.eqb c "^") eqn:Ec.
    + cbn [append PyStr.contains] in H.
      assert (Hno : forall t, String.prefix (String x q) (String "*" t) = false).
      { intros t. cbn [String.prefix]. destruct (ascii_dec x "*"); [contradiction | reflexivity]. }
      rewrite !Hno in H. right. apply IH. exact H.
    + cbn [PyStr.contains] in H. apply orb_true_iff in H. destruct H as [H | H].
      * left. apply caret_prefix_back; [exact Hstar|].
        unfold Server.power_notation. cbn [PyStr.replace_char]. rewrite Ec. exact H.
      * right. apply IH. exact H.
Qed.

Lemma patterns_star_free (p : string) :
  In p Server.dangerous_patterns -> PyStr.contains p "*" = false.
Proof.
  intros H. repeat (destruct H as [<- | H]; [reflexivity|]). destruct H.
Qed.

(** C3, as the sources have it.  Only space characters are removed before
    the denylist is consulted.  An expression that holds a denylisted token,
    in any letter case, once its spaces are removed is answered with the
    error that names a token it holds, the first one in the order of the
    denylist, and [eval] is not reached: the answer is the same whatever
    [eval] would do. *)
Theorem calculate_rejects_denylisted
        (py_eval : string -> PyResult value) (expression token : string) :
  In token Server.dangerous_patterns ->
  PyStr.contains (PyStr.lower (Server.remove_spaces expression)) token = true ->
  exists pattern,
    In pattern Server.dangerous_patterns
    /\ PyStr.contains (PyStr.lower (Server.remove_spaces expression)) pattern = true
    /\ Server.first_dangerous Server.dangerous_patterns
         (PyStr.lower (Server.clean expression)) = Some pattern
    /\ Server.check expression = Server.Answer (Server.not_allowed pattern)
    /\ Server.calculate py_eval expression = Returned (Server.not_allowed pattern).
Proof.
  intros Hin Hfound.
  pose proof (found_after_clean expression token Hin Hfound) as Hclean.
  destruct (first_dangerous_finds _ _ _ Hin Hclean) as [q [Hq [Hq1 Hq2]]].
  assert (Hne : PyStr.is_empty (Server.clean expression) = false).
  { destruct (Server.clean expression) eqn:E; [|reflexivity].
    apply contains_app in Hclean. destruct Hclean as [a [b H]].
    destruct a; [|discriminate]. simpl in H.
    destruct token; [|discriminate].
    now apply patterns_not_empty in Hin. }
  assert (Hcheck : Server.check expression = Server.Answer (Server.not_allowed q)).
  { unfold Server.check. now rewrite Hne, Hq. }
  exists q. repeat split; try assumption.
  - rewrite lower_clean in Hq2.
    apply caret_contains_back in Hq2;
      [exact Hq2 | now apply patterns_not_empty | now apply patterns_star_free].
  - unfold Server.calculate, Server.calculate_body. now rewrite Hcheck.
Qed.

Lemma calculate_rejects_denylisted_witness :
  exists pattern,
    In pattern Server.dangerous_patterns
    /\ PyStr.contains (PyStr.lower (Server.remove_spaces "Ev al(1) + IM port")) pattern = true
    /\ Server.first_dangerous Server.dangerous_patterns
         (PyStr.lower (Server.clean "Ev al(1) + IM port")) = Some pattern
    /\ Server.check "Ev al(1) + IM port" = Server.Answer (Server.not_allowed pattern)
    /\ Server.calculate (fun _ => Returned (VInt 1)) "Ev al(1) + IM port"
       = Returned (Server.not_allowed pattern).
Proof.
  apply (calculate_rejects_denylisted (fun _ => Returned (VInt 1)) "Ev al(1) + IM port" "eval").
  - simpl; tauto.
  - reflexivity.
Defined.

(** C3 as stated fails: a tab is whitespace, yet it is not removed.  With
    its whitespace removed [im<TAB>port] holds [import]; [calculate] does not
    refuse it and goes on to [eval]. *)
Lemma tab_hides_token :
  PyStr.contains
    (PyStr.lower (Spec.remove_whitespace ("im" ++ String PyStr.tab "port"))) "import" = true
  /\ Server.check ("im" ++ String PyStr.tab "port")
     = Server.Evaluate ("im" ++ String PyStr.tab "port")
  /\ Server.calculate (fun _ => Raised (SyntaxError "invalid syntax"))
                      ("im" ++ String PyStr.tab "port")
     = Returned "Error: Invalid mathematical expression".
Proof. repeat split; reflexivity. Qed.

End Guard.

(** ** The blocking adapter *)

Section Adapter.

Variable mcp : Gradio.world.

Lemma run_async_result (a : Gradio.attempt) (text : string) :
  Gradio.run_async a = Gradio.Result text ->
  Gradio.call_tool_async (Gradio.session a) = Gradio.Result text.
Proof.
  unfold Gradio.run_async.
  destruct (Gradio.new_loop_error a); [discriminate|].
  destruct (Gradio.close_error a); [discriminate|]. tauto.
Qed.

(** The queue is empty after a finished worker exactly when the worker was
    ended by an exception outside [Exception]. *)
Lemma nothing_recorded (a : Gradio.attempt) :
  Gradio.thread_func a [] = [] <-> Gradio.run_async a = Gradio.Abort.
Proof.
  unfold Gradio.thread_func. destruct (Gradio.run_async a); simpl; split;
    solve [discriminate | reflexivity].
Qed.

(** C4.  When the worker is over before the timeout and the bridge call it
    ran produced a text, [call_tool_sync] returns that text, which is the
    text of [call_tool_async]. *)
Theorem adapter_transparent (tool_name : string) (args : Gradio.arguments)
        (t : Z) (text : string) :
  Gradio.elapsed_ms (mcp tool_name args) = Some t ->
  t < Gradio.timeout_ms ->
  Gradio.run_async (mcp tool_name args) = Gradio.Result text ->
  Gradio.call_tool_sync mcp tool_name args = text
  /\ Gradio.call_tool_async (Gradio.session (mcp tool_name args)) = Gradio.Result text.
Proof.
  intros Ht Hlt Hrun. split; [|now apply run_async_result].
  unfold Gradio.call_tool_sync, Gradio.is_alive, Gradio.thread_func.
  cbv zeta. rewrite Ht, Hrun.
  destruct (Z.leb_spec Gradio.timeout_ms t); [lia | reflexivity].
Qed.

(** C5.  A worker still alive when the wait is over gives the timeout text;
    a worker that is over with nothing in the queue gives the no-response
    text.  In both cases [call_tool_sync] returns; the two texts differ. *)
Theorem adapter_timeout_and_no_response (tool_name : string) (args : Gradio.arguments) :
  (Gradio.is_alive (mcp tool_name args) = true ->
   Gradio.call_tool_sync mcp tool_name args = Gradio.timeout_text)
  /\ (Gradio.is_alive (mcp tool_name args) = false ->
      Gradio.thread_func (mcp tool_name args) [] = [] ->
      Gradio.call_tool_sync mcp tool_name args = Gradio.no_response_text)
  /\ Gradio.timeout_text <> Gradio.no_response_text.
Proof.
  unfold Gradio.call_tool_sync. cbv zeta. repeat split.
  - intros ->. reflexivity.
  - intros -> ->. reflexivity.
  - discriminate.
Qed.

End Adapter.

Lemma adapter_transparent_witness :
  Gradio.call_tool_sync
    (Gradio.hosted (fun _ => Returned (VInt 4)) (fun m => m) (fun q => q))
    "calculate" [("expression", "2+2")] = "2+2 = 4"
  /\ Gradio.call_tool_async
       (Gradio.session
          (Gradio.hosted (fun _ => Returned (VInt 4)) (fun m => m) (fun q => q)
                         "calculate" [("expression", "2+2")]))
     = Gradio.Result "2+2 = 4".
Proof.
  apply (adapter_transparent
           (Gradio.hosted (fun _ => Returned (VInt 4)) (fun m => m) (fun q => q))
           "calculate" [("expression", "2+2")] 0 "2+2 = 4").
  - reflexivity.
  - reflexivity.
  - reflexivity.
Defined.

Lemma adapter_timeout_and_no_response_witness :
  Gradio.call_tool_sync
    (fun _ _ => {| Gradio.new_loop_error := None; Gradio.session := Gradio.Responds [];
                   Gradio.close_error := None; Gradio.elapsed_ms := None |})
    "chat_with_gemma3" [("message", "hi")] = Gradio.timeout_text
  /\ Gradio.call_tool_sync
       (fun _ _ => {| Gradio.new_loop_error := None; Gradio.session := Gradio.Aborts;
                      Gradio.close_error := None; Gradio.elapsed_ms := Some 12 |})
       "chat_with_gemma3" [("message", "hi")] = Gradio.no_response_text.
Proof.
  split.
  - apply (proj1 (adapter_timeout_and_no_response
                    (fun _ _ => {| Gradio.new_loop_error := None;
                                   Gradio.session := Gradio.Responds [];
                                   Gradio.close_error := None;
                                   Gradio.elapsed_ms := None |})
                    "chat_with_gemma3" [("message", "hi")])).
    reflexivity.
  - apply (proj1 (proj2 (adapter_timeout_and_no_response
                    (fun _ _ => {| Gradio.new_loop_error := None;
                                   Gradio.session := Gradio.Aborts;
                                   Gradio.close_error := None;
                                   Gradio.elapsed_ms := Some 12 |})
                    "chat_with_gemma3" [("message", "hi")]))).
    + reflexivity.
    + reflexivity.
Defined.

(** ** [calculate]: evaluation and formatting *)

Section Formatting.






(** The formatting, on a result whose text the interpreter gives. *)
Lemma format_result_text (expression : string) (v : value) :
  Server.format_result expression v
  = match Server.result_text v with
    | Returned shown => Returned (expression ++ " = " ++ shown)
    | Raised e => Raised e
    end.
Proof. reflexivity. Qed.













(** The [try] block does raise: without the [except] clauses the exception
    of [eval] would leave [calculate]. *)
Lemma calculate_body_raises (e : exn) :
  Server.calculate_body (fun _ => Raised e) "1/0" = Raised e.
Proof. reflexivity. Qed.


Lemma contains_char_cons (c x : ascii) (r : string) :
  PyStr.contains (String c r) (String x EmptyString)
  = (Ascii.eqb c x || PyStr.contains r (String x EmptyString))%bool.
Proof.
  cbn [PyStr.contains String.prefix].
  destruct (ascii_dec x c) as [-> | Hne].
  - rewrite Ascii.eqb_refl. destruct r; reflexivity.
  - assert (Ascii.eqb c x = false) as -> by (apply Ascii.eqb_neq; congruence).
    reflexivity.
Qed.

(** No [^] is left in the cleaned expression. *)
Lemma clean_has_no_caret (expression : string) :
  PyStr.contains (Server.clean expression) "^" = false.
Proof.
  unfold Server.clean, Server.remove_spaces, Server.power_notation.
  induction expression as [|c r IH]; [reflexivity|].
  cbn [PyStr.replace_char].
  destruct (Ascii.eqb c "^") eqn:Ec.
  - cbn [append PyStr.replace_char Ascii.eqb Bool.eqb].
    rewrite !contains_char_cons. rewrite IH. reflexivity.
  - cbn [PyStr.replace_char]. destruct (Ascii.eqb c " "); [exact IH|].
    rewrite contains_char_cons, Ec, IH. reflexivity.
Qed.

(** C10.  The first thing [calculate] does is to replace every [^] by [**]:
    the denylist is consulted on the rewritten expression, the rewritten
    expression is what is evaluated and what is echoed, and no [^] is left in
    it.  So [2^3] is the power [2**3 = 8], not the exclusive or, which is 1. *)
Theorem caret_becomes_power :
  (forall expression : string,
      Server.check expression =
      let rewritten := PyStr.replace_char " " EmptyString (PyStr.replace_char "^" "**" expression) in
      if PyStr.is_empty rewritten then Server.Answer "Error: Empty expression"
      else match Server.first_dangerous Server.dangerous_patterns (PyStr.lower rewritten) with
           | Some pattern => Server.Answer (Server.not_allowed pattern)
           | None => Server.Evaluate rewritten
           end)
  /\ (forall expression : string,
         PyStr.contains
           (PyStr.replace_char " " EmptyString (PyStr.replace_char "^" "**" expression)) "^" = false)
  /\ Server.check "2^3" = Server.Evaluate "2**3"
  /\ PyArith.eval "2**3" = Some (Returned (VInt 8))
  /\ Server.calculate_ref "2^3" = Some (Returned "2**3 = 8")
  /\ Z.lxor 2 3 = 1.
Proof.
  split; [reflexivity|].
  split; [exact clean_has_no_caret|].
  repeat split; vm_compute; reflexivity.
Qed.

End Formatting.

(** ** The history of the multi-tool tab *)

Section History.

Lemma calculate_text_not_empty (py_eval : string -> PyResult value) (expression : string) :
  exists text, Server.calculate py_eval expression = Returned text
               /\ PyStr.is_empty text = false.
Proof.
  unfold Server.calculate, Server.calculate_body, Server.check.
  destruct (Server.clean expression) as [|c r] eqn:Eclean; cbn [PyStr.is_empty].
  - eexists; split; reflexivity.
  - destruct (Server.first_dangerous _ _).
    + eexists; split; reflexivity.
    + unfold bind at 1. destruct (py_eval (String c r)) as [v | []].
      * rewrite format_result_text.
        destruct (Server.result_text v) as [shown | []]; eexists; split; reflexivity.
      * eexists; split; reflexivity.
      * eexists; split; reflexivity.
      * eexists; split; reflexivity.
      * eexists; split; reflexivity.
Qed.

(** Through a host that answers at once, the calculator tab shows the text
    of the tool. *)
Lemma hosted_calculate (py_eval : string -> PyResult value) (chat search : string -> string)
      (expression text : string) :
  PyStr.is_empty (PyStr.strip expression) = false ->
  Server.calculate py_eval expression = Returned text ->
  Gradio.calculate (Gradio.hosted py_eval chat search) expression = text.
Proof.
  intros Hne Hcalc.
  destruct (calculate_text_not_empty py_eval expression) as [text' [H1 H2]].
  rewrite Hcalc in H1. injection H1 as <-.
  unfold Gradio.calculate. rewrite Hne.
  unfold Gradio.call_tool_sync, Gradio.hosted, Gradio.is_alive, Gradio.thread_func,
    Gradio.run_async, Gradio.run_tool.
  cbn. rewrite Hcalc. cbn. rewrite H2. reflexivity.
Qed.

(** C8.  A blank message leaves the history as it is; any other message
    appends one pair whose first component is the message.  For [calc: 2+2]
    on the empty history, the response is the calculator marker followed by
    what the calculator handler returns for [2+2], which through the host is
    the text of the tool [calculate] on [2+2]. *)
Theorem multi_tool_history (mcp : Gradio.world) (message : string) (h : Gradio.history) :
  (exists response,
      Gradio.multi_tool_response mcp message h =
      if PyStr.is_empty (PyStr.strip message) then (h, EmptyString)
      else ((h ++ [(message, response)])%list, EmptyString))
  /\ Gradio.multi_tool_response mcp "calc: 2+2" []
     = ([("calc: 2+2", Gradio.calc_marker ++ Gradio.calculate mcp "2+2")], EmptyString)
  /\ (forall (py_eval : string -> PyResult value) (chat search : string -> string),
         exists text,
           Server.calculate py_eval "2+2" = Returned text
           /\ Gradio.multi_tool_response (Gradio.hosted py_eval chat search) "calc: 2+2" []
              = ([("calc: 2+2", Gradio.calc_marker ++ text)], EmptyString))
  /\ Server.calculate_ref "2+2" = Some (Returned "2+2 = 4").
Proof.
  split.
  { exists (Spec.reply mcp (Spec.route Spec.as_typed message)).
    apply multi_tool_response_route. }
  split; [reflexivity|].
  split; [|reflexivity].
  intros py_eval chat search.
  destruct (calculate_text_not_empty py_eval "2+2") as [text [Hcalc _]].
  exists text. split; [exact Hcalc|].
  rewrite multi_tool_response_route.
  change (PyStr.is_empty (PyStr.strip "calc: 2+2")) with false. cbv iota.
  change (Spec.route Spec.as_typed "calc: 2+2") with (Spec.Calc "2+2").
  cbn [Spec.reply]. rewrite (hosted_calculate py_eval chat search "2+2" text eq_refl Hcalc).
  reflexivity.
Qed.

End History.

(** ** [summarize_text] *)

Section Summaries.

Lemma floor_half_neg (m : Z) : - m / 2 = - ((m + 1) / 2).
Proof. Z.to_euclidean_division_equations; lia. Qed.

(** C9, as the sources have it.  A text of at most [max_length] words comes
    back whole behind its word count.  A longer one, for a positive
    [max_length], comes back as its first [max_length // 2] words, an
    ellipsis, and its last [(max_length + 1) // 2] words, behind the word
    count of that summary. *)
Theorem summarize_text_cases (text : string) (max_length : Z) :
  (Z.of_nat (List.length (PyStr.split text)) <= max_length ->
   Server.summarize_text text max_length
   = "Text is already short ("
       ++ PyStr.of_Z (Z.of_nat (List.length (PyStr.split text))) ++ " words): " ++ text)
  /\ (0 < max_length < Z.of_nat (List.length (PyStr.split text)) ->
      let summary :=
        PyStr.join " " (firstn (Z.to_nat (max_length / 2)) (PyStr.split text))
          ++ "... "
          ++ PyStr.join " " (Spec.lastn (Z.to_nat ((max_length + 1) / 2)) (PyStr.split text)) in
      Server.summarize_text text max_length
      = "Summary (" ++ PyStr.of_Z (Z.of_nat (List.length (PyStr.split summary)))
          ++ " words): " ++ summary).
Proof.
  unfold Server.summarize_text. cbv zeta.
  set (words := PyStr.split text). set (n := Z.of_nat (List.length words)).
  split.
  - intros Hle. destruct (Z.leb_spec n max_length); [reflexivity | lia].
  - intros [Hpos Hlt]. destruct (Z.leb_spec n max_length); [lia|].
    assert (Hfirst : PyStr.slice_to words (max_length / 2)
                     = firstn (Z.to_nat (max_length / 2)) words).
    { unfold PyStr.slice_to. fold n.
      destruct (Z.ltb_spec (max_length / 2) 0).
      - exfalso. Z.to_euclidean_division_equations; lia.
      - f_equal. f_equal. Z.to_euclidean_division_equations; lia. }
    assert (Hlast : PyStr.slice_from words (- max_length / 2)
                    = Spec.lastn (Z.to_nat ((max_length + 1) / 2)) words).
    { unfold PyStr.slice_from, Spec.lastn. fold n. rewrite floor_half_neg.
      destruct (Z.ltb_spec (- ((max_length + 1) / 2)) 0).
      - f_equal. subst n. Z.to_euclidean_division_equations; lia.
      - exfalso. Z.to_euclidean_division_equations; lia. }
    rewrite Hfirst, Hlast. reflexivity.
Qed.

Lemma summarize_text_cases_witness :
  Server.summarize_text "one two three four five six" 5
  = "Summary (5 words): one two... four five six"
  /\ Server.summarize_text "one two three" 5 = "Text is already short (3 words): one two three".
Proof.
  split.
  - apply (proj2 (summarize_text_cases "one two three four five six" 5)).
    split; reflexivity.
  - apply (proj1 (summarize_text_cases "one two three" 5)).
    discriminate.
Defined.

Lemma length_app (a b : string) :
  String.length (a ++ b) = (String.length a + String.length b)%nat.
Proof. induction a; simpl; congruence. Qed.

(** C9 as stated fails for an odd [max_length]: of four words with
    [max_length = 3] the summary keeps the last two, where the last
    [3 // 2] words are one. *)
Lemma summarize_odd_keeps_more :
  Server.summarize_text "a b c d" 3 = "Summary (3 words): a... c d"
  /\ Spec.claimed_summary "a b c d" 3 = "a... d"
  /\ ~ (exists count : string,
           Server.summarize_text "a b c d" 3
           = "Summary (" ++ count ++ " words): " ++ Spec.claimed_summary "a b c d" 3).
Proof.
  split; [reflexivity|]. split; [reflexivity|].
  intros [count H].
  change (Server.summarize_text "a b c d" 3) with "Summary (3 words): a... c d" in H.
  change (Spec.claimed_summary "a b c d" 3) with "a... d" in H.
  pose proof (f_equal String.length H) as Hlen.
  rewrite !length_app in Hlen. simpl in Hlen.
  destruct count as [|c1 [|c2 [|c3 [|c4 count]]]]; simpl in Hlen; try lia.
  apply (f_equal (PyStr.drop 12)) in H. cbn in H. discriminate H.
Qed.

End Summaries.

(** * Further properties *)

(** ** [calculate]: what the answer depends on *)

Section Cleaning.

Variable py_eval : string -> PyResult value.









Lemma clean_empty_iff (expression : string) :
  Server.clean expression = EmptyString
  <-> forallb (Ascii.eqb " ") (list_ascii_of_string expression) = true.
Proof.
  unfold Server.clean, Server.remove_spaces, Server.power_notation.
  induction expression as [|c r IH]; [split; reflexivity|].
  cbn [PyStr.replace_char list_ascii_of_string forallb].
  destruct (Ascii.eqb c "^") eqn:Ec.
  - apply Ascii.eqb_eq in Ec; subst c. cbn. split; discriminate.
  - cbn [PyStr.replace_char]. rewrite (Ascii.eqb_sym " " c).
    destruct (Ascii.eqb c " "); cbn [andb]; [exact IH | split; discriminate].
Qed.

(** An expression is refused as empty exactly when it is made of space
    characters only; [eval] is then not reached.  Tabs or newlines alone
    are not refused as empty. *)
Theorem calculate_empty_expression (expression : string) :
  (Server.check expression = Server.Answer "Error: Empty expression"
   <-> forallb (Ascii.eqb " ") (list_ascii_of_string expression) = true)
  /\ (forallb (Ascii.eqb " ") (list_ascii_of_string expression) = true ->
      Server.calculate py_eval expression = Returned "Error: Empty expression").
Proof.
  assert (Hiff : Server.check expression = Server.Answer "Error: Empty expression"
                 <-> Server.clean expression = EmptyString).
  { unfold Server.check. destruct (Server.clean expression) as [|c r] eqn:E.
    - split; reflexivity.
    - cbn [PyStr.is_empty]. destruct (Server.first_dangerous _ _) as [p|].
      + split; [|discriminate]. unfold Server.not_allowed. intros H.
        injection H as H. discriminate H.
      + split; discriminate. }
  split.
  - rewrite Hiff. apply clean_empty_iff.
  - intros H. apply clean_empty_iff in H.
    unfold Server.calculate, Server.calculate_body, Server.check. now rewrite H.
Qed.

Lemma prefix_of_app (p r : string) : String.prefix p (p ++ r) = true.
Proof. apply prefix_app. now exists r. Qed.


End Cleaning.

Lemma calculate_empty_expression_witness :
  Server.calculate (fun _ => Returned (VInt 0)) "   " = Returned "Error: Empty expression".
Proof.
  apply (proj2 (calculate_empty_expression (fun _ => Returned (VInt 0)) "   ")).
  reflexivity.
Defined.

(** Every function and constant that [safe_dict] offers passes the denylist
    under its own name; [__builtins__] does not. *)
Theorem whitelist_passes_denylist (name : string) :
  In name Server.safe_dict ->
  name <> "__builtins__" ->
  Server.check name = Server.Evaluate name.
Proof.
  intros H Hne.
  repeat (destruct H as [<- | H]; [first [reflexivity | congruence] |]).
  destruct H.
Qed.

Lemma whitelist_passes_denylist_witness :
  Server.check "log10" = Server.Evaluate "log10".
Proof.
  apply (whitelist_passes_denylist "log10").
  - simpl; tauto.
  - discriminate.
Defined.

(** ** [summarize_text]: the word count of a summary *)

Section Words.

Lemma is_space2_ascii (b1 b2 : nat) : (b2 < 128)%nat -> PyStr.is_space2 b1 b2 = false.
Proof.
  intros H. unfold PyStr.is_space2.
  assert ((b2 =? 133)%nat = false) as -> by (apply Nat.eqb_neq; lia).
  assert ((b2 =? 160)%nat = false) as -> by (apply Nat.eqb_neq; lia).
  now rewrite andb_false_r.
Qed.

Lemma is_space3_ascii2 (b1 b2 b3 : nat) : (b2 < 128)%nat -> PyStr.is_space3 b1 b2 b3 = false.
Proof.
  intros H. unfold PyStr.is_space3.
  assert ((b2 =? 154)%nat = false) as -> by (apply Nat.eqb_neq; lia).
  assert ((b2 =? 128)%nat = false) as -> by (apply Nat.eqb_neq; lia).
  assert ((b2 =? 129)%nat = false) as -> by (apply Nat.eqb_neq; lia).
  now rewrite !andb_false_r.
Qed.

Lemma is_space3_ascii3 (b1 b2 b3 : nat) : (b3 < 128)%nat -> PyStr.is_space3 b1 b2 b3 = false.
Proof.
  intros H. unfold PyStr.is_space3.
  assert ((b3 =? 128)%nat = false) as -> by (apply Nat.eqb_neq; lia).
  assert ((b3 =? 159)%nat = false) as -> by (apply Nat.eqb_neq; lia).
  assert ((b3 =? 168)%nat = false) as -> by (apply Nat.eqb_neq; lia).
  assert ((b3 =? 169)%nat = false) as -> by (apply Nat.eqb_neq; lia).
  assert ((b3 =? 175)%nat = false) as -> by (apply Nat.eqb_neq; lia).
  assert ((128 <=? b3)%nat = false) as -> by (apply Nat.leb_gt; lia).
  now rewrite !andb_false_r.
Qed.

Lemma is_space2_ascii_lead (b1 b2 : nat) : (b1 < 128)%nat -> PyStr.is_space2 b1 b2 = false.
Proof.
  intros H. unfold PyStr.is_space2.
  now assert ((b1 =? 194)%nat = false) as -> by (apply Nat.eqb_neq; lia).
Qed.

Lemma is_space3_ascii_lead (b1 b2 b3 : nat) : (b1 < 128)%nat -> PyStr.is_space3 b1 b2 b3 = false.
Proof.
  intros H. unfold PyStr.is_space3.
  assert ((b1 =? 225)%nat = false) as -> by (apply Nat.eqb_neq; lia).
  assert ((b1 =? 226)%nat = false) as -> by (apply Nat.eqb_neq; lia).
  now assert ((b1 =? 227)%nat = false) as -> by (apply Nat.eqb_neq; lia).
Qed.

Lemma is_ascii_bound (c : ascii) : PyStr.is_ascii c = true -> (nat_of_ascii c < 128)%nat.
Proof. unfold PyStr.is_ascii. apply Nat.ltb_lt. Qed.

(** A character of the ASCII range that is not whitespace starts no
    whitespace character, whatever follows it. *)
Lemma space_width_plain (c : ascii) (r : string) :
  PyStr.is_space c = false -> PyStr.is_ascii c = true ->
  PyStr.space_width (String c r) = 0%nat.
Proof.
  intros Hs Ha. apply is_ascii_bound in Ha. cbn [PyStr.space_width]. rewrite Hs.
  destruct r as [|d r]; [reflexivity|].
  rewrite is_space2_ascii_lead by exact Ha.
  destruct r as [|e r]; [reflexivity|].
  now rewrite is_space3_ascii_lead by exact Ha.
Qed.

(** A whitespace character found at the head of [u] is found there with
    anything behind [u]. *)
Lemma space_width_app (u t : string) :
  PyStr.space_width u = 0%nat \/ PyStr.space_width (u ++ t) = PyStr.space_width u.
Proof.
  destruct u as [|c [|d [|e u]]]; cbn [append PyStr.space_width].
  - left; reflexivity.
  - destruct (PyStr.is_space c); [right | left]; reflexivity.
  - destruct (PyStr.is_space c); [right; reflexivity|].
    destruct (PyStr.is_space2 _ _); [right | left]; reflexivity.
  - right; reflexivity.
Qed.

(** What follows [u] cannot complete a whitespace character begun in [u]
    when it starts in the ASCII range. *)
Lemma space_width_context (u t : string) :
  u <> EmptyString -> PyStr.ascii_headed t ->
  PyStr.space_width (u ++ t) = PyStr.space_width u.
Proof.
  intros Hu Ht. destruct t as [|x t]; [now rewrite append_empty_r|].
  cbn [PyStr.ascii_headed] in Ht. apply is_ascii_bound in Ht.
  destruct u as [|c [|d [|e u]]]; [congruence | | |]; cbn [append PyStr.space_width].
  - destruct (PyStr.is_space c); [reflexivity|].
    rewrite is_space2_ascii by exact Ht.
    destruct t as [|y t]; [reflexivity|].
    now rewrite is_space3_ascii2 by exact Ht.
  - destruct (PyStr.is_space c); [reflexivity|].
    destruct (PyStr.is_space2 _ _); [reflexivity|].
    now rewrite is_space3_ascii3 by exact Ht.
  - reflexivity.
Qed.

Lemma is_word_inv (w : string) :
  PyStr.is_word w = true -> w <> EmptyString /\ PyStr.no_space w = true.
Proof.
  unfold PyStr.is_word. intros H. apply andb_true_iff in H. destruct H as [H1 H2].
  split; [|exact H2]. destruct w; discriminate.
Qed.

Lemma is_word_intro (w : string) :
  w <> EmptyString -> PyStr.no_space w = true -> PyStr.is_word w = true.
Proof.
  unfold PyStr.is_word. intros H1 H2. rewrite H2. destruct w; [congruence | reflexivity].
Qed.

Lemma is_word_cons (c : ascii) (w : string) :
  PyStr.space_width (String c w) = 0%nat -> PyStr.no_space w = true ->
  PyStr.is_word (String c w) = true.
Proof.
  intros H0 Hw. apply is_word_intro; [discriminate|].
  cbn [PyStr.no_space]. now rewrite H0, Hw.
Qed.

Lemma split_unfold_word (c : ascii) (r : string) :
  PyStr.space_width (String c r) = 0%nat ->
  PyStr.split (String c r)
  = if PyStr.in_word r then
      match PyStr.split r with
      | w :: ws => String c w :: ws
      | [] => [String c EmptyString]
      end
    else String c EmptyString :: PyStr.split r.
Proof. intros H. cbn [PyStr.split]. now rewrite H. Qed.

(** What [split] returns are words, and where the text starts with a word
    that word is a prefix of the text. *)
Lemma split_shape (n : nat) :
  forall s : string,
    (String.length s <= n)%nat ->
    forallb PyStr.is_word (PyStr.split s) = true
    /\ (PyStr.in_word s = true ->
        exists w ws t, PyStr.split s = w :: ws /\ s = w ++ t).
Proof.
  induction n as [|n IH]; intros s Hlen.
  - destruct s; [|simpl in Hlen; lia]. split; [reflexivity | discriminate].
  - destruct s as [|c r]; [split; [reflexivity | discriminate]|].
    cbn [String.length] in Hlen.
    destruct (IH r) as [Hr Hin]; [lia|].
    destruct (PyStr.space_width (String c r)) as [|[|[|k]]] eqn:Ew.
    + rewrite (split_unfold_word c r Ew).
      destruct (PyStr.in_word r) eqn:Er.
      * destruct (Hin eq_refl) as [w [ws [t [Hs Hw]]]]. rewrite Hs in *.
        cbn [forallb] in Hr. apply andb_true_iff in Hr. destruct Hr as [Hword Hws].
        apply is_word_inv in Hword. destruct Hword as [_ Hword].
        split.
        -- cbn [forallb]. rewrite Hws, andb_true_r. apply is_word_cons; [|exact Hword].
           destruct (space_width_app (String c w) t) as [H | H]; [exact H|].
           cbn [append] in H. rewrite <- Hw, Ew in H. now symmetry.
        -- intros _. exists (String c w), ws, t. split; [reflexivity|].
           cbn [append]. now rewrite <- Hw.
      * split.
        -- cbn [forallb]. rewrite Hr, andb_true_r. apply is_word_cons; [|reflexivity].
           destruct (space_width_app (String c EmptyString) r) as [H | H]; [exact H|].
           cbn [append] in H. rewrite Ew in H. now symmetry.
        -- intros _. exists (String c EmptyString), (PyStr.split r), r. split; reflexivity.
    + cbn [PyStr.split PyStr.in_word]. rewrite Ew. split; [exact Hr | discriminate].
    + cbn [PyStr.split PyStr.in_word]. rewrite Ew. split; [|discriminate].
      destruct r as [|d r2]; [reflexivity|]. apply IH. cbn [String.length] in Hlen. lia.
    + cbn [PyStr.split PyStr.in_word]. rewrite Ew. split; [|discriminate].
      destruct r as [|d [|e r3]]; try reflexivity. apply IH. cbn [String.length] in Hlen. lia.
Qed.

(** What [split] returns are words. *)
Lemma split_words (s : string) : forallb PyStr.is_word (PyStr.split s) = true.
Proof. apply (split_shape (String.length s) s). lia. Qed.

(** A word is the first word of the split when what follows it starts with
    whitespace of the ASCII range, or is empty. *)
Lemma split_word_app (w t : string) :
  PyStr.is_word w = true -> PyStr.in_word t = false -> PyStr.ascii_headed t ->
  PyStr.split (w ++ t) = w :: PyStr.split t.
Proof.
  intros Hw Hin Ht. apply is_word_inv in Hw. destruct Hw as [Hne Hw].
  induction w as [|c w IH]; [congruence|].
  cbn [PyStr.no_space] in Hw. apply andb_true_iff in Hw. destruct Hw as [H0 Hw].
  apply Nat.eqb_eq in H0.
  assert (Hhere : PyStr.space_width (String c (w ++ t)) = 0%nat).
  { change (String c (w ++ t)) with (String c w ++ t).
    rewrite space_width_context; [exact H0 | discriminate | exact Ht]. }
  cbn [append]. rewrite (split_unfold_word _ _ Hhere).
  destruct w as [|c' w'].
  - cbn [append]. now rewrite Hin.
  - assert (Hnext : PyStr.in_word (String c' w' ++ t) = true).
    { cbn [append PyStr.in_word].
      change (String c' (w' ++ t)) with (String c' w' ++ t).
      rewrite space_width_context; [|discriminate | exact Ht].
      cbn [PyStr.no_space] in Hw. apply andb_true_iff in Hw. exact (proj1 Hw). }
    rewrite Hnext, IH; [reflexivity | discriminate | exact Hw].
Qed.

Lemma no_space_app (w a : string) :
  PyStr.no_space w = true -> PyStr.no_space a = true -> PyStr.ascii_headed a ->
  PyStr.no_space (w ++ a) = true.
Proof.
  intros Hw Ha Hh. induction w as [|c w IH]; [exact Ha|].
  cbn [PyStr.no_space] in Hw. apply andb_true_iff in Hw. destruct Hw as [H0 Hw].
  cbn [append PyStr.no_space]. rewrite (IH Hw), andb_true_r.
  change (String c (w ++ a)) with (String c w ++ a).
  rewrite space_width_context; [exact H0 | discriminate | exact Hh].
Qed.

Lemma lstrip_plain (c : ascii) (r : string) :
  PyStr.space_width (String c r) = 0%nat -> PyStr.lstrip (String c r) = String c r.
Proof. intros H. cbn [PyStr.lstrip]. now rewrite H. Qed.

Lemma not_blank_head (c : ascii) (r : string) :
  PyStr.space_width (String c r) = 0%nat ->
  PyStr.is_empty (PyStr.strip (String c r)) = false.
Proof.
  intros H. unfold PyStr.strip. rewrite (lstrip_plain c r H).
  cbn [PyStr.rstrip]. now rewrite (lstrip_plain c r H).
Qed.

(** A word comes back from [split] as it is. *)
Lemma split_single (w : string) : PyStr.is_word w = true -> PyStr.split w = [w].
Proof.
  intros H. rewrite <- (append_empty_r w) at 1.
  rewrite split_word_app; [reflexivity | exact H | reflexivity | exact I].
Qed.

(** A word followed by a space is the first word of the split. *)
Lemma split_cons (w rest : string) :
  PyStr.is_word w = true -> PyStr.split (w ++ " " ++ rest) = w :: PyStr.split rest.
Proof.
  intros H. rewrite split_word_app; [reflexivity | exact H | reflexivity | reflexivity].
Qed.

(** Joining words with spaces and splitting again gives the words back. *)
Lemma split_join (ws : list string) :
  forallb PyStr.is_word ws = true -> PyStr.split (PyStr.join " " ws) = ws.
Proof.
  unfold PyStr.join. induction ws as [|w ws IH]; intros H; [reflexivity|].
  cbn [forallb] in H. apply andb_true_iff in H. destruct H as [Hw Hws].
  destruct ws as [|w2 ws].
  - cbn [String.concat]. now apply split_single.
  - change (String.concat " " (w :: w2 :: ws)) with (w ++ " " ++ String.concat " " (w2 :: ws)).
    rewrite split_cons by exact Hw. now rewrite IH.
Qed.

Lemma join_app (ws1 ws2 : list string) :
  ws1 <> [] -> ws2 <> [] ->
  PyStr.join " " (ws1 ++ ws2)%list = PyStr.join " " ws1 ++ " " ++ PyStr.join " " ws2.
Proof.
  unfold PyStr.join. intros H1 H2. induction ws1 as [|w ws1 IH]; [congruence|].
  destruct ws1 as [|w' ws1].
  - destruct ws2 as [|v ws2]; [congruence|]. reflexivity.
  - change (String.concat " " ((w :: w' :: ws1) ++ ws2)%list)
      with (w ++ " " ++ String.concat " " ((w' :: ws1) ++ ws2)%list).
    rewrite IH by discriminate.
    change (String.concat " " (w :: w' :: ws1)) with (w ++ " " ++ String.concat " " (w' :: ws1)).
    now rewrite !append_assoc.
Qed.

Lemma join_snoc_suffix (ws : list string) (w tail : string) :
  PyStr.join " " (ws ++ [w])%list ++ tail = PyStr.join " " (ws ++ [(w ++ tail)%string])%list.
Proof.
  unfold PyStr.join. induction ws as [|v ws IH]; [reflexivity|].
  destruct ws as [|v' ws].
  - cbn [app String.concat]. now rewrite !append_assoc.
  - change (String.concat " " ((v :: v' :: ws) ++ [w])%list)
      with (v ++ " " ++ String.concat " " ((v' :: ws) ++ [w])%list).
    change (String.concat " " ((v :: v' :: ws) ++ [(w ++ tail)%string])%list)
      with (v ++ " " ++ String.concat " " ((v' :: ws) ++ [(w ++ tail)%string])%list).
    rewrite <- IH. now rewrite !append_assoc.
Qed.

Lemma word_with_dots (w : string) :
  PyStr.is_word w = true -> PyStr.is_word (w ++ "...") = true.
Proof.
  intros H. apply is_word_inv in H. destruct H as [Hne Hw]. apply is_word_intro.
  - destruct w; [congruence | discriminate].
  - apply no_space_app; [exact Hw | reflexivity | reflexivity].
Qed.

(** The words of a summary: the first part with the ellipsis on its last
    word, then the last part. *)
Lemma split_summary (first last : list string) :
  forallb PyStr.is_word first = true -> forallb PyStr.is_word last = true ->
  first <> [] -> last <> [] ->
  List.length
    (PyStr.split (PyStr.join " " first ++ "... " ++ PyStr.join " " last))
  = (List.length first + List.length last)%nat.
Proof.
  intros Hf Hl Hf0 Hl0.
  destruct (exists_last Hf0) as [front [w ->]].
  change ("... " ++ PyStr.join " " last) with ("..." ++ " " ++ PyStr.join " " last).
  rewrite <- append_assoc, join_snoc_suffix.
  rewrite <- join_app by (try assumption; now destruct front).
  rewrite split_join.
  - rewrite !List.length_app. cbn [List.length]. lia.
  - rewrite !forallb_app in *. apply andb_true_iff in Hf. destruct Hf as [Hfront Hw].
    rewrite Hfront, Hl. cbn [forallb] in *. rewrite andb_true_r in Hw.
    now rewrite (word_with_dots w Hw).
Qed.

Lemma split_after_dots (ws : list string) :
  forallb PyStr.is_word ws = true -> ws <> [] ->
  PyStr.split ("... " ++ PyStr.join " " ws) = "..." :: ws.
Proof.
  intros H Hne.
  change ("... " ++ PyStr.join " " ws) with ("..." ++ " " ++ PyStr.join " " ws).
  rewrite split_cons by reflexivity.
  now rewrite split_join.
Qed.

End Words.

Section SummaryCount.

Lemma forallb_firstn {A} (f : A -> bool) (k : nat) (l : list A) :
  forallb f l = true -> forallb f (firstn k l) = true.
Proof.
  revert k; induction l as [|x l IH]; intros k H; destruct k; try reflexivity.
  cbn [forallb firstn] in *. apply andb_true_iff in H. destruct H as [-> H].
  now apply IH.
Qed.

Lemma forallb_skipn {A} (f : A -> bool) (k : nat) (l : list A) :
  forallb f l = true -> forallb f (skipn k l) = true.
Proof.
  revert k; induction l as [|x l IH]; intros k H; destruct k; try assumption.
  cbn [forallb skipn] in *. apply andb_true_iff in H. destruct H as [_ H].
  now apply IH.
Qed.

Lemma not_nil_of_length {A} (l : list A) : (0 < List.length l)%nat -> l <> [].
Proof. destruct l; simpl; [lia | discriminate]. Qed.

(** The two slices of the long branch, for a positive [max_length]. *)
Lemma summarize_slices (words : list string) (max_length : Z) :
  0 < max_length < Z.of_nat (List.length words) ->
  PyStr.slice_to words (max_length / 2) = firstn (Z.to_nat (max_length / 2)) words
  /\ PyStr.slice_from words (- max_length / 2)
     = Spec.lastn (Z.to_nat ((max_length + 1) / 2)) words.
Proof.
  intros [Hpos Hlt]. split.
  - unfold PyStr.slice_to.
    destruct (Z.ltb_spec (max_length / 2) 0).
    + exfalso. Z.to_euclidean_division_equations; lia.
    + f_equal. f_equal. Z.to_euclidean_division_equations; lia.
  - unfold PyStr.slice_from, Spec.lastn. rewrite floor_half_neg.
    destruct (Z.ltb_spec (- ((max_length + 1) / 2)) 0).
    + f_equal. Z.to_euclidean_division_equations; lia.
    + exfalso. Z.to_euclidean_division_equations; lia.
Qed.

(** For a [max_length] of at least 2 and a longer text, the summary is
    labelled with exactly [max_length] words: the first [max_length // 2]
    words, the ellipsis joined to the last of them, and the last
    [(max_length + 1) // 2] words. *)
Theorem summary_word_count (text : string) (max_length : Z) :
  2 <= max_length < Z.of_nat (List.length (PyStr.split text)) ->
  Server.summarize_text text max_length
  = "Summary (" ++ PyStr.of_Z max_length ++ " words): "
      ++ PyStr.join " " (firstn (Z.to_nat (max_length / 2)) (PyStr.split text))
      ++ "... "
      ++ PyStr.join " " (Spec.lastn (Z.to_nat ((max_length + 1) / 2)) (PyStr.split text)).
Proof.
  intros [Hlo Hhi]. unfold Server.summarize_text. cbv zeta.
  set (words := PyStr.split text) in *.
  destruct (Z.leb_spec (Z.of_nat (List.length words)) max_length); [lia|].
  destruct (summarize_slices words max_length) as [-> ->]; [lia|].
  rewrite split_summary.
  - do 3 f_equal. unfold Spec.lastn.
    rewrite length_firstn, length_skipn.
    Z.to_euclidean_division_equations; lia.
  - apply forallb_firstn, split_words.
  - apply forallb_skipn, split_words.
  - apply not_nil_of_length. rewrite length_firstn.
    Z.to_euclidean_division_equations; lia.
  - apply not_nil_of_length. unfold Spec.lastn. rewrite length_skipn.
    Z.to_euclidean_division_equations; lia.
Qed.

Lemma summary_word_count_witness :
  Server.summarize_text "one two three four five six" 5
  = "Summary (" ++ PyStr.of_Z 5 ++ " words): "
      ++ PyStr.join " " (firstn (Z.to_nat (5 / 2)) (PyStr.split "one two three four five six"))
      ++ "... "
      ++ PyStr.join " "
           (Spec.lastn (Z.to_nat ((5 + 1) / 2)) (PyStr.split "one two three four five six")).
Proof.
  apply (summary_word_count "one two three four five six" 5).
  split; [discriminate | reflexivity].
Defined.

(** With [max_length = 0] a text that has words is not shortened: the last
    part is [words[-0:]], every word, so the summary is an ellipsis followed
    by the whole text on single spaces, labelled with one word more than the
    text has. *)
Theorem summarize_zero_keeps_every_word (text : string) :
  PyStr.split text <> [] ->
  Server.summarize_text text 0
  = "Summary (" ++ PyStr.of_Z (Z.of_nat (List.length (PyStr.split text)) + 1)
      ++ " words): ... " ++ PyStr.join " " (PyStr.split text).
Proof.
  intros Hne. unfold Server.summarize_text. cbv zeta.
  set (words := PyStr.split text) in *.
  assert (Hlen : (0 < List.length words)%nat) by (destruct words; simpl; [congruence | lia]).
  destruct (Z.leb_spec (Z.of_nat (List.length words)) 0); [lia|].
  change (0 / 2) with 0. change (- 0 / 2) with 0.
  assert (Hfirst : PyStr.slice_to words 0 = []).
  { unfold PyStr.slice_to. change (0 <? 0) with false. cbv iota.
    rewrite Z.min_r by lia. reflexivity. }
  assert (Hlast : PyStr.slice_from words 0 = words).
  { unfold PyStr.slice_from. change (0 <? 0) with false. cbv iota.
    rewrite Z.min_r by lia. reflexivity. }
  rewrite Hfirst, Hlast.
  change (PyStr.join " " [] ++ "... " ++ PyStr.join " " words)
    with ("... " ++ PyStr.join " " words).
  rewrite split_after_dots by (try assumption; apply split_words).
  cbn [List.length].
  replace (Z.of_nat (S (List.length words))) with (Z.of_nat (List.length words) + 1) by lia.
  reflexivity.
Qed.

Lemma summarize_zero_keeps_every_word_witness :
  Server.summarize_text "a b  c" 0
  = "Summary (" ++ PyStr.of_Z (Z.of_nat (List.length (PyStr.split "a b  c")) + 1)
      ++ " words): ... " ++ PyStr.join " " (PyStr.split "a b  c").
Proof.
  apply (summarize_zero_keeps_every_word "a b  c"). discriminate.
Defined.

(** With [max_length = 1] a text of two words or more is cut to its last
    word behind an ellipsis, and the label counts two words. *)
Theorem summarize_one_keeps_last_word (text : string) :
  1 < Z.of_nat (List.length (PyStr.split text)) ->
  exists w,
    Spec.lastn 1 (PyStr.split text) = [w]
    /\ Server.summarize_text text 1 = "Summary (2 words): ... " ++ w.
Proof.
  intros Hlen. unfold Server.summarize_text. cbv zeta.
  set (words := PyStr.split text) in *.
  destruct (Z.leb_spec (Z.of_nat (List.length words)) 1); [lia|].
  destruct (summarize_slices words 1) as [Hfirst Hlast]; [lia|].
  rewrite Hfirst, Hlast. change (Z.to_nat (1 / 2)) with 0%nat.
  change (Z.to_nat ((1 + 1) / 2)) with 1%nat.
  assert (Hone : List.length (Spec.lastn 1 words) = 1%nat).
  { unfold Spec.lastn. rewrite length_skipn. lia. }
  assert (Hwords : forallb PyStr.is_word (Spec.lastn 1 words) = true).
  { apply forallb_skipn, split_words. }
  destruct (Spec.lastn 1 words) as [|w [|w' rest]]; try discriminate Hone.
  exists w. split; [reflexivity|].
  change (PyStr.join " " (firstn 0 words) ++ "... " ++ PyStr.join " " [w])
    with ("... " ++ PyStr.join " " [w]).
  rewrite split_after_dots by (try assumption; discriminate).
  reflexivity.
Qed.

Lemma summarize_one_keeps_last_word_witness :
  exists w,
    Spec.lastn 1 (PyStr.split "a b c") = [w]
    /\ Server.summarize_text "a b c" 1 = "Summary (2 words): ... " ++ w.
Proof.
  apply (summarize_one_keeps_last_word "a b c"). reflexivity.
Defined.

End SummaryCount.

(** ** The bridge and the adapter: what reaches the caller *)

Section AdapterOutcomes.

Variable mcp : Gradio.world.

(** The bridge never hands back an empty text: an empty answer of the
    session is replaced, an error is reported behind [Error: ]. *)
Theorem bridge_text_not_empty (run : Gradio.session_run) (text : string) :
  Gradio.call_tool_async run = Gradio.Result text -> PyStr.is_empty text = false.
Proof.
  destruct run as [[|[t | err] rest] | msg |]; simpl; try discriminate.
  - now intros [= <-].
  - destruct t; simpl; now intros [= <-].
  - now intros [= <-].
  - now intros [= <-].
Qed.

Lemma bridge_text_not_empty_witness :
  PyStr.is_empty "No response received" = false.
Proof.
  apply (bridge_text_not_empty (Gradio.Responds [Gradio.TextContent EmptyString])).
  reflexivity.
Defined.

(** Whatever happens to the worker, [call_tool_sync] returns a text that is
    not empty. *)
Theorem call_tool_sync_not_empty (tool_name : string) (args : Gradio.arguments) :
  PyStr.is_empty (Gradio.call_tool_sync mcp tool_name args) = false.
Proof.
  unfold Gradio.call_tool_sync. cbv zeta.
  destruct (Gradio.is_alive _); [reflexivity|].
  unfold Gradio.thread_func, Gradio.run_async.
  destruct (Gradio.new_loop_error _); [reflexivity|].
  destruct (Gradio.close_error _); [reflexivity|].
  destruct (Gradio.session _) as [[|[t | err] rest] | msg |]; cbn; try reflexivity.
  destruct t; reflexivity.
Qed.

(** When the worker is over in time: a failure of the session comes back
    as a plain text behind [Error: ], without the error mark; a failure to
    create or to close the event loop comes back behind the error mark, and
    a failure to close it replaces the answer the session gave. *)
Theorem adapter_error_texts (tool_name : string) (args : Gradio.arguments) :
  Gradio.is_alive (mcp tool_name args) = false ->
  (forall msg,
      Gradio.new_loop_error (mcp tool_name args) = None ->
      Gradio.close_error (mcp tool_name args) = None ->
      Gradio.session (mcp tool_name args) = Gradio.Fails msg ->
      Gradio.call_tool_sync mcp tool_name args = "Error: " ++ msg)
  /\ (forall msg,
         Gradio.new_loop_error (mcp tool_name args) = Some msg ->
         Gradio.call_tool_sync mcp tool_name args = Gradio.error_mark ++ msg)
  /\ (forall msg,
         Gradio.new_loop_error (mcp tool_name args) = None ->
         Gradio.close_error (mcp tool_name args) = Some msg ->
         Gradio.call_tool_sync mcp tool_name args = Gradio.error_mark ++ msg).
Proof.
  intros Halive. unfold Gradio.call_tool_sync, Gradio.thread_func, Gradio.run_async.
  cbv zeta. rewrite Halive. repeat split.
  - intros msg -> -> ->. reflexivity.
  - intros msg ->. reflexivity.
  - intros msg -> ->. reflexivity.
Qed.

End AdapterOutcomes.

Lemma adapter_error_texts_witness :
  Gradio.call_tool_sync
    (fun _ _ => {| Gradio.new_loop_error := None;
                   Gradio.session := Gradio.Responds [Gradio.TextContent "4"];
                   Gradio.close_error := Some "loop is closed";
                   Gradio.elapsed_ms := Some 5 |})
    "calculate" [("expression", "2+2")] = Gradio.error_mark ++ "loop is closed".
Proof.
  apply (proj2 (proj2 (adapter_error_texts
           (fun _ _ => {| Gradio.new_loop_error := None;
                          Gradio.session := Gradio.Responds [Gradio.TextContent "4"];
                          Gradio.close_error := Some "loop is closed";
                          Gradio.elapsed_ms := Some 5 |})
           "calculate" [("expression", "2+2")] eq_refl))).
  - reflexivity.
  - reflexivity.
Defined.

(** ** The tabs *)

Section Tabs.


Lemma strip_blank (s : string) :
  PyStr.is_empty (PyStr.strip s) = true -> PyStr.strip s = EmptyString.
Proof. destruct (PyStr.strip s); [reflexivity | discriminate]. Qed.

Lemma multi_tool_prefixed (mcp : Gradio.world) (rest : string) (h : Gradio.history) :
  Gradio.multi_tool_response mcp ("calc:" ++ rest) h
  = (List.app h [("calc:" ++ rest,
             Gradio.calc_marker ++ Gradio.calculate mcp (PyStr.strip rest))],
     EmptyString)
  /\ Gradio.multi_tool_response mcp ("search:" ++ rest) h
     = (List.app h [("search:" ++ rest,
                Gradio.search_marker ++ Gradio.web_search mcp (PyStr.strip rest))],
        EmptyString)
  /\ Gradio.multi_tool_response mcp ("summarize:" ++ rest) h
     = (List.app h [("summarize:" ++ rest,
                Gradio.summarize_marker ++ Gradio.summarize mcp (PyStr.strip rest))],
        EmptyString).
Proof.
  unfold Gradio.multi_tool_response, PyStr.startswith.
  repeat split.
  - change ("calc:" ++ rest) with (String "c" ("alc:" ++ rest)) at 1.
    rewrite (not_blank_head "c" ("alc:" ++ rest) eq_refl), prefix_of_app. reflexivity.
  - change ("search:" ++ rest) with (String "s" ("earch:" ++ rest)) at 1.
    rewrite (not_blank_head "s" ("earch:" ++ rest) eq_refl), prefix_of_app. reflexivity.
  - change ("summarize:" ++ rest) with (String "s" ("ummarize:" ++ rest)) at 1.
    rewrite (not_blank_head "s" ("ummarize:" ++ rest) eq_refl), prefix_of_app. reflexivity.
Qed.

(** In the multi-tool tab a message that starts with a prefix is answered
    as the tab of that tool answers the trimmed remainder, behind the marker
    of the tool. *)
Theorem multi_tool_same_as_tab (mcp : Gradio.world) (rest : string) (h : Gradio.history) :
  Gradio.multi_tool_response mcp ("calc:" ++ rest) h
  = (List.app h [("calc:" ++ rest,
             Gradio.calc_marker ++ Gradio.calculate mcp (PyStr.strip rest))],
     EmptyString)
  /\ Gradio.multi_tool_response mcp ("search:" ++ rest) h
     = (List.app h [("search:" ++ rest,
                Gradio.search_marker ++ Gradio.web_search mcp (PyStr.strip rest))],
        EmptyString)
  /\ Gradio.multi_tool_response mcp ("summarize:" ++ rest) h
     = (List.app h [("summarize:" ++ rest,
                Gradio.summarize_marker ++ Gradio.summarize mcp (PyStr.strip rest))],
        EmptyString).
Proof.
  unfold Gradio.multi_tool_response, PyStr.startswith.
  repeat split.
  - change ("calc:" ++ rest) with (String "c" ("alc:" ++ rest)) at 1.
    rewrite (not_blank_head "c" ("alc:" ++ rest) eq_refl), prefix_of_app. reflexivity.
  - change ("search:" ++ rest) with (String "s" ("earch:" ++ rest)) at 1.
    rewrite (not_blank_head "s" ("earch:" ++ rest) eq_refl), prefix_of_app. reflexivity.
  - change ("summarize:" ++ rest) with (String "s" ("ummarize:" ++ rest)) at 1.
    rewrite (not_blank_head "s" ("ummarize:" ++ rest) eq_refl), prefix_of_app. reflexivity.
Qed.

(** A blank input reaches no tool: a blank message leaves the history as it
    is, and after a prefix a blank remainder is answered with the hint of the
    tab, whatever the state of the world. *)
Theorem blank_input_reaches_no_tool (mcp : Gradio.world) (blank : string) (h : Gradio.history) :
  PyStr.is_empty (PyStr.strip blank) = true ->
  Gradio.chat_response mcp blank h = (h, EmptyString)
  /\ Gradio.multi_tool_response mcp blank h = (h, EmptyString)
  /\ Gradio.calculate mcp blank = "Please enter a mathematical expression"
  /\ Gradio.web_search mcp blank = "Please enter a search query"
  /\ Gradio.summarize mcp blank = "Please enter text to summarize"
  /\ snd (Gradio.multi_tool_response mcp ("calc:" ++ blank) h) = EmptyString
  /\ fst (Gradio.multi_tool_response mcp ("calc:" ++ blank) h)
     = List.app h [("calc:" ++ blank,
               Gradio.calc_marker ++ "Please enter a mathematical expression")]
  /\ fst (Gradio.multi_tool_response mcp ("search:" ++ blank) h)
     = List.app h [("search:" ++ blank,
               Gradio.search_marker ++ "Please enter a search query")]
  /\ fst (Gradio.multi_tool_response mcp ("summarize:" ++ blank) h)
     = List.app h [("summarize:" ++ blank,
               Gradio.summarize_marker ++ "Please enter text to summarize")].
Proof.
  intros Hblank.
  destruct (multi_tool_prefixed mcp blank h) as [Hc [Hs Hz]].
  rewrite Hc, Hs, Hz.
  unfold Gradio.chat_response, Gradio.multi_tool_response, Gradio.calculate,
    Gradio.web_search, Gradio.summarize.
  rewrite (strip_blank blank Hblank).
  repeat split; reflexivity.
Qed.

End Tabs.

Lemma blank_input_reaches_no_tool_witness :
  Gradio.calculate (fun _ _ => {| Gradio.new_loop_error := None;
                                  Gradio.session := Gradio.Aborts;
                                  Gradio.close_error := None;
                                  Gradio.elapsed_ms := None |}) "   "
  = "Please enter a mathematical expression".
Proof.
  apply (blank_input_reaches_no_tool
           (fun _ _ => {| Gradio.new_loop_error := None;
                          Gradio.session := Gradio.Aborts;
                          Gradio.close_error := None;
                          Gradio.elapsed_ms := None |}) "   " [] eq_refl).
Defined.

Section Histories.

Variable mcp : Gradio.world.

Lemma sync_text_not_empty (tool_name : string) (args : Gradio.arguments) :
  PyStr.is_empty (Gradio.call_tool_sync mcp tool_name args) = false.
Proof.
  unfold Gradio.call_tool_sync. cbv zeta.
  destruct (Gradio.is_alive _); [reflexivity|].
  unfold Gradio.thread_func, Gradio.run_async.
  destruct (Gradio.new_loop_error _); [reflexivity|].
  destruct (Gradio.close_error _); [reflexivity|].
  destruct (Gradio.session _) as [[|[t | err] rest] | msg |]; cbn; try reflexivity.
  destruct t; reflexivity.
Qed.

(** Both chat tabs only ever append to the history: what was there stays in
    front, at most one pair is added, its first component is the message as
    typed and its response is not empty, and the text box is cleared. *)
Theorem history_is_append_only (message : string) (h : Gradio.history) :
  (exists added,
      fst (Gradio.multi_tool_response mcp message h) = (h ++ added)%list
      /\ (List.length added <= 1)%nat
      /\ (forall entry, In entry added ->
                        fst entry = message /\ PyStr.is_empty (snd entry) = false)
      /\ snd (Gradio.multi_tool_response mcp message h) = EmptyString)
  /\ (exists added,
         fst (Gradio.chat_response mcp message h) = (h ++ added)%list
         /\ (List.length added <= 1)%nat
         /\ (forall entry, In entry added ->
                           fst entry = message /\ PyStr.is_empty (snd entry) = false)
         /\ snd (Gradio.chat_response mcp message h) = EmptyString).
Proof.
  split.
  - rewrite multi_tool_response_route.
    destruct (PyStr.is_empty (PyStr.strip message)).
    + exists []. cbn [fst snd List.length]. rewrite app_nil_r.
      split; [reflexivity|]. split; [lia|]. split; [intros ? []|reflexivity].
    + eexists [_]. cbn [fst snd List.length].
      split; [reflexivity|]. split; [lia|]. split; [|reflexivity].
      intros entry [<- | []]. cbn [fst snd]. split; [reflexivity|].
      destruct (Spec.route Spec.as_typed message); reflexivity.
  - unfold Gradio.chat_response.
    destruct (PyStr.is_empty (PyStr.strip message)).
    + exists []. cbn [fst snd List.length]. rewrite app_nil_r.
      split; [reflexivity|]. split; [lia|]. split; [intros ? []|reflexivity].
    + eexists [_]. cbn [fst snd List.length].
      split; [reflexivity|]. split; [lia|]. split; [|reflexivity].
      intros entry [<- | []]. cbn [fst snd]. split; [reflexivity|].
      apply sync_text_not_empty.
Qed.

End Histories.

Section RegistryUse.

Variables w1 w2 : Gradio.world.

(** The two worlds answer alike whenever a registered tool is called with
    arguments it declares. *)
Hypothesis same_on_registry :
  forall (tool : Server.Tool) (args : Gradio.arguments),
    In tool Server.tools ->
    (forall k v, In (k, v) args -> In k (Server.parameters tool)) ->
    w1 (Server.name tool) args = w2 (Server.name tool) args.



End RegistryUse.


(** ** The console program *)

Section Console.

Variable h : Client.host.

(** A call made by the loop body names a registered tool and passes one
    argument, not empty, under a parameter the tool declares. *)
Lemma main_step_call_shape (line label tool_name : string) (args : Gradio.arguments) :
  Client.main_step line = Client.CallTool label tool_name args ->
  exists tool key value,
    In tool Server.tools
    /\ tool_name = Server.name tool
    /\ args = [(key, value)]
    /\ In key (Server.parameters tool)
    /\ PyStr.is_empty value = false.
Proof.
  unfold Client.main_step. cbv zeta.
  destruct (Client.member _ _); [discriminate|].
  destruct (PyStr.is_empty (PyStr.strip line)) eqn:Hne; [discriminate|].
  destruct (String.eqb _ _); [discriminate|].
  destruct (PyStr.startswith _ "calc:").
  { destruct (PyStr.is_empty (PyStr.strip (PyStr.drop 5 _))) eqn:E; [discriminate|].
    intros E'; injection E' as <- <- <-.
    exists Server.calculate_tool, "expression". eexists.
    repeat split; try exact E; simpl; tauto. }
  destruct (PyStr.startswith _ "search:").
  { destruct (PyStr.is_empty (PyStr.strip (PyStr.drop 7 _))) eqn:E; [discriminate|].
    intros E'; injection E' as <- <- <-.
    exists Server.search_tool, "query". eexists.
    repeat split; try exact E; simpl; tauto. }
  destruct (PyStr.startswith _ "summarize:").
  { destruct (PyStr.is_empty (PyStr.strip (PyStr.drop 10 _))) eqn:E; [discriminate|].
    intros E'; injection E' as <- <- <-.
    exists Server.summarize_tool, "text". eexists.
    repeat split; try exact E; simpl; tauto. }
  intros E'; injection E' as <- <- <-.
  exists Server.chat_tool, "message". eexists.
  repeat split; try exact Hne; simpl; tauto.
Qed.

Lemma loop_calls_registered (tools : list (string * string)) (events : list Client.console_event) :
  forall (made : nat) (cancel waiting : bool) (c : string * Gradio.arguments),
    In c (Client.calls (Client.chat_loop h tools made cancel waiting events)) ->
    exists tool key value,
      In tool Server.tools
      /\ c = (Server.name tool, [(key, value)])
      /\ In key (Server.parameters tool)
      /\ PyStr.is_empty value = false.
Proof.
  induction events as [|[line|] rest IH]; intros made cancel waiting c; cbn [Client.chat_loop].
  - intros [].
  - destruct (Client.main_step line) as [| | | text | label tool_name args] eqn:Hstep;
      cbn [Client.calls Client.ended Client.before app]; try (intros []); try apply IH.
    assert (Hshape := main_step_call_shape _ _ _ _ Hstep).
    destruct Hshape as [tool [key [value [H1 [-> [-> [H2 H3]]]]]]].
    assert (Hhere : forall c', (Server.name tool, [(key, value)]) = c' ->
                               exists tool0 key0 value0,
                                 In tool0 Server.tools
                                 /\ c' = (Server.name tool0, [(key0, value0)])
                                 /\ In key0 (Server.parameters tool0)
                                 /\ PyStr.is_empty value0 = false).
    { intros c' <-. exists tool, key, value. repeat split; assumption. }
    destruct cancel; [cbn [Client.calls]; intros [E | []]; now apply Hhere|].
    destruct (Client.call_tool h made _ _) as [content | msg |].
    + destruct (Client.first_text content) as [msg | text].
      * cbn [Client.calls]. intros [E | []]. now apply Hhere.
      * cbn [Client.calls Client.before app]. intros [E | Hin]; [now apply Hhere | now apply IH in Hin].
    + cbn [Client.calls]. intros [E | []]. now apply Hhere.
    + cbn [Client.calls]. intros [E | []]. now apply Hhere.
  - destruct (Client.cancels_on_interrupt h && negb cancel);
      cbn [Client.calls Client.ended Client.before app]; [apply IH | intros []].
Qed.

Lemma loop_calls_bounded (tools : list (string * string)) (events : list Client.console_event) :
  forall (made : nat) (cancel waiting : bool),
    (List.length (Client.calls (Client.chat_loop h tools made cancel waiting events))
     <= List.length events)%nat.
Proof.
  induction events as [|[line|] rest IH]; intros made cancel waiting;
    cbn [Client.chat_loop List.length].
  - simpl; lia.
  - destruct (Client.main_step line);
      cbn [Client.calls Client.ended Client.before app List.length];
      try lia; try (specialize (IH made cancel false); lia).
    destruct cancel; [cbn [Client.calls List.length]; lia|].
    destruct (Client.call_tool h made _ _) as [content | msg |]; cbn [Client.calls List.length]; try lia.
    destruct (Client.first_text content); cbn [Client.calls Client.before app List.length]; try lia.
    specialize (IH (S made) false false). lia.
  - destruct (Client.cancels_on_interrupt h && negb cancel);
      cbn [Client.calls Client.ended Client.before app List.length]; [|lia].
    specialize (IH made true true). lia.
Qed.

Lemma calls_run (t : Client.trace) : Client.calls (Client.run t) = Client.calls t.
Proof. unfold Client.run. destruct (Client.cancelling t); reflexivity. Qed.

Lemma calls_report (t : Client.trace) : Client.calls (Client.report t) = Client.calls t.
Proof. unfold Client.report. destruct (Client.ending t); reflexivity. Qed.

(** With the connection made and the tools listed, the calls of the run are
    those of the loop. *)
Lemma calls_main (tools : list (string * string)) (events : list Client.console_event) :
  Client.open_error h = None ->
  Client.initialize_error h = None ->
  Client.tools_result h = inr tools ->
  Client.calls (Client.main h events)
  = Client.calls (Client.chat_loop h tools 0 false false events).
Proof.
  intros Hopen Hinit Htools. unfold Client.main.
  rewrite calls_run, calls_report, Hopen, Hinit, Htools. reflexivity.
Qed.

Lemma main_calls (events : list Client.console_event) :
  Client.calls (Client.main h events) = []
  \/ exists tools, Client.calls (Client.main h events)
                   = Client.calls (Client.chat_loop h tools 0 false false events).
Proof.
  destruct (Client.open_error h) as [msg|] eqn:Hopen.
  { left. unfold Client.main. now rewrite calls_run, calls_report, Hopen. }
  destruct (Client.initialize_error h) as [msg|] eqn:Hinit.
  { left. unfold Client.main. now rewrite calls_run, calls_report, Hopen, Hinit. }
  destruct (Client.tools_result h) as [msg | tools] eqn:Htools.
  { left. unfold Client.main. now rewrite calls_run, calls_report, Hopen, Hinit, Htools. }
  right. exists tools. now apply calls_main.
Qed.

(** Every call the console program makes goes to a registered tool, with
    one non-empty argument under a parameter that tool declares; it makes at
    most one call for each line read. *)
Theorem console_calls_follow_registry (events : list Client.console_event) :
  (forall c, In c (Client.calls (Client.main h events)) ->
             exists tool key value,
               In tool Server.tools
               /\ c = (Server.name tool, [(key, value)])
               /\ In key (Server.parameters tool)
               /\ PyStr.is_empty value = false)
  /\ (List.length (Client.calls (Client.main h events)) <= List.length events)%nat.
Proof.
  destruct (main_calls events) as [-> | [tools ->]].
  - split; [intros ? [] | simpl; lia].
  - split; [apply loop_calls_registered | apply loop_calls_bounded].
Qed.

Lemma said_last (waiting : bool) (last : string) :
  exists body,
    (if waiting then [last] else [Client.prompt; last]) = (body ++ [last])%list.
Proof. destruct waiting; [now exists [] | now exists [Client.prompt]]. Qed.



End Console.

Section ConsoleRuns.

Variable h : Client.host.




(** A loop left by an exception reads nothing more. *)
Lemma loop_left_reads_no_more (tools : list (string * string))
      (events rest : list Client.console_event) :
  forall (made : nat) (cancel waiting : bool),
    Client.ending (Client.chat_loop h tools made cancel waiting events) <> Client.Landed ->
    Client.chat_loop h tools made cancel waiting (events ++ rest)
    = Client.chat_loop h tools made cancel waiting events.
Proof.
  induction events as [|[line|] events IH]; intros made cancel waiting;
    cbn [app Client.chat_loop].
  - cbn [Client.ended Client.ending]. congruence.
  - destruct (Client.main_step line); cbn [Client.ending Client.ended Client.before];
      try congruence; try (intros H; now rewrite (IH _ _ _ H)).
    destruct cancel; [reflexivity|].
    destruct (Client.call_tool h made _ _) as [content | |]; try reflexivity.
    destruct (Client.first_text content); [reflexivity|].
    cbn [Client.ending Client.before]. intros H. now rewrite (IH _ _ _ H).
  - destruct (Client.cancels_on_interrupt h && negb cancel);
      cbn [Client.ending Client.ended Client.before]; [|congruence].
    intros H. now rewrite (IH _ _ _ H).
Qed.

(** A call that the host fails, at any place in the run, is the last call
    of the loop; the loop is left with the label written last and, unless
    the task was asked to cancel, with the exception of the call. *)
Lemma loop_failed_call (tools : list (string * string)) (msg : string)
      (events : list Client.console_event) :
  forall (made : nat) (cancel waiting : bool) (n : nat) (tool_name : string)
         (args : Gradio.arguments),
    nth_error (Client.calls (Client.chat_loop h tools made cancel waiting events)) n
    = Some (tool_name, args) ->
    (Client.call_tool h (made + n) tool_name args = Client.CallRaised msg
     \/ exists content,
         Client.call_tool h (made + n) tool_name args = Client.Answered content
         /\ Client.first_text content = inl msg) ->
    List.length (Client.calls (Client.chat_loop h tools made cancel waiting events)) = S n
    /\ Client.ending (Client.chat_loop h tools made cancel waiting events) <> Client.Landed
    /\ (Client.cancelling (Client.chat_loop h tools made cancel waiting events) = false ->
        Client.ending (Client.chat_loop h tools made cancel waiting events) = Client.Raising msg
        /\ exists body line label,
            In (Client.Typed line) events
            /\ Client.main_step line = Client.CallTool label tool_name args
            /\ Client.stdout (Client.chat_loop h tools made cancel waiting events)
               = (body ++ [label])%list).
Proof.
  assert (Hbefore : forall out e rest (t : Client.trace) n tool_name args,
             (nth_error (Client.calls t) n = Some (tool_name, args) ->
              List.length (Client.calls t) = S n
              /\ Client.ending t <> Client.Landed
              /\ (Client.cancelling t = false ->
                  Client.ending t = Client.Raising msg
                  /\ exists body line label,
                      In (Client.Typed line) rest
                      /\ Client.main_step line = Client.CallTool label tool_name args
                      /\ Client.stdout t = (body ++ [label])%list)) ->
             nth_error (Client.calls (Client.before out [] t)) n = Some (tool_name, args) ->
             List.length (Client.calls (Client.before out [] t)) = S n
             /\ Client.ending (Client.before out [] t) <> Client.Landed
             /\ (Client.cancelling (Client.before out [] t) = false ->
                 Client.ending (Client.before out [] t) = Client.Raising msg
                 /\ exists body line label,
                     In (Client.Typed line) (e :: rest)
                     /\ Client.main_step line = Client.CallTool label tool_name args
                     /\ Client.stdout (Client.before out [] t) = (body ++ [label])%list)).
  { intros out e rest t n tool_name args Ht Hn.
    cbn [Client.before Client.calls Client.ending Client.cancelling Client.stdout app] in *.
    destruct (Ht Hn) as [Hlen [Hend Hrest]]. split; [exact Hlen|]. split; [exact Hend|].
    intros Hc. destruct (Hrest Hc) as [He [body [line [label [Hin [Hstep Hout]]]]]].
    split; [exact He|]. exists (out ++ body)%list, line, label.
    split; [right; exact Hin|]. split; [exact Hstep|]. now rewrite Hout, app_assoc. }
  induction events as [|[line|] rest IH]; intros made cancel waiting n tool_name args;
    cbn [Client.chat_loop].
  - destruct n; discriminate.
  - destruct (Client.main_step line) as [| | | text | label called_tool called_args] eqn:Hstep.
    + destruct n; discriminate.
    + intros Hn Hfail. apply Hbefore; [|exact Hn]. intros Hn'. now apply IH.
    + intros Hn Hfail. apply Hbefore; [|exact Hn]. intros Hn'. now apply IH.
    + intros Hn Hfail. apply Hbefore; [|exact Hn]. intros Hn'. now apply IH.
    + assert (Hsaid : exists body,
                 (if waiting then [label] else [Client.prompt; label]) = (body ++ [label])%list)
        by apply said_last.
      destruct Hsaid as [body0 Hbody0].
      assert (Hhere : forall how : Client.flight,
                 how <> Client.Landed ->
                 (cancel = false -> how = Client.Raising msg) ->
                 forall t : Client.trace,
                   t = {| Client.stdout := if waiting then [label] else [Client.prompt; label];
                          Client.calls := [(called_tool, called_args)];
                          Client.ending := how;
                          Client.cancelling := cancel |} ->
                   nth_error (Client.calls t) n = Some (tool_name, args) ->
                   List.length (Client.calls t) = S n
                   /\ Client.ending t <> Client.Landed
                   /\ (Client.cancelling t = false ->
                       Client.ending t = Client.Raising msg
                       /\ exists body line0 label0,
                           In (Client.Typed line0) (Client.Typed line :: rest)
                           /\ Client.main_step line0 = Client.CallTool label0 tool_name args
                           /\ Client.stdout t = (body ++ [label0])%list)).
      { intros how Hhow Hmsg t -> Hn. cbn [Client.calls Client.ending Client.cancelling Client.stdout] in *.
        destruct n as [|n]; [|destruct n; discriminate Hn].
        injection Hn as <- <-. split; [reflexivity|]. split; [exact Hhow|].
        intros Hc. split; [now apply Hmsg|].
        exists body0, line, label. split; [left; reflexivity|]. split; [exact Hstep | exact Hbody0]. }
      destruct cancel.
      { intros Hn _. apply (Hhere Client.Escaping); [discriminate | discriminate | reflexivity | exact Hn]. }
      destruct (Client.call_tool h made called_tool called_args) as [content | raised |] eqn:Hcall.
      * destruct (Client.first_text content) as [raised | text] eqn:Htext.
        -- intros Hn Hfail. apply (Hhere (Client.Raising raised)); try reflexivity; try exact Hn;
             [discriminate|]. intros _.
           cbn [Client.calls] in Hn. destruct n as [|n]; [|destruct n; discriminate Hn].
           injection Hn as <- <-. rewrite Nat.add_0_r, Hcall in Hfail.
           destruct Hfail as [Hfail | [content' [Hfail Hmsg]]]; [discriminate Hfail|].
           injection Hfail as <-. congruence.
        -- cbn [Client.before Client.calls Client.ending Client.cancelling Client.stdout app].
           destruct n as [|n].
           ++ cbn [nth_error]. intros Hn Hfail. injection Hn as <- <-.
              rewrite Nat.add_0_r, Hcall in Hfail.
              destruct Hfail as [Hfail | [content' [Hfail Hmsg]]]; [discriminate Hfail|].
              injection Hfail as <-. congruence.
           ++ cbn [nth_error List.length]. intros Hn Hfail.
              replace (made + S n)%nat with (S made + n)%nat in Hfail by lia.
              destruct (IH (S made) false false n tool_name args Hn Hfail) as [Hlen [Hend Hrest]].
              split; [now rewrite Hlen|]. split; [exact Hend|].
              intros Hc. destruct (Hrest Hc) as [He [body [line0 [label0 [Hin [Hstep0 Hout]]]]]].
              split; [exact He|].
              exists ((if waiting then [label; Client.println text]
                       else [Client.prompt; label; Client.println text]) ++ body)%list, line0, label0.
              split; [right; exact Hin|]. split; [exact Hstep0|].
              rewrite Hout, app_assoc. reflexivity.
      * intros Hn Hfail. apply (Hhere (Client.Raising raised)); try reflexivity; try exact Hn;
          [discriminate|]. intros _.
        cbn [Client.calls] in Hn. destruct n as [|n]; [|destruct n; discriminate Hn].
        injection Hn as <- <-. rewrite Nat.add_0_r, Hcall in Hfail.
        destruct Hfail as [Hfail | [content' [Hfail Hmsg]]]; [|discriminate Hfail].
        now injection Hfail as <-.
      * intros Hn Hfail. exfalso.
        cbn [Client.calls] in Hn. destruct n as [|n]; [|destruct n; discriminate Hn].
        injection Hn as <- <-. rewrite Nat.add_0_r, Hcall in Hfail.
        destruct Hfail as [Hfail | [content' [Hfail Hmsg]]]; discriminate Hfail.
  - destruct (Client.cancels_on_interrupt h && negb cancel).
    + intros Hn Hfail. apply Hbefore; [|exact Hn]. intros Hn'. now apply IH.
    + destruct n; discriminate.
Qed.

Lemma cancelling_run (t : Client.trace) :
  Client.cancelling (Client.run t) = Client.cancelling t.
Proof. unfold Client.run. destruct (Client.cancelling t) eqn:E; [reflexivity | exact E]. Qed.

Lemma cancelling_report (t : Client.trace) :
  Client.cancelling (Client.report t) = Client.cancelling t.
Proof. unfold Client.report. destruct (Client.ending t); reflexivity. Qed.

(** The run, once the connection is made and the tools are listed. *)
Lemma main_connected (tools : list (string * string)) (events : list Client.console_event) :
  Client.open_error h = None ->
  Client.initialize_error h = None ->
  Client.tools_result h = inr tools ->
  Client.main h events
  = Client.run
      (Client.report
         (Client.leaving h
            (Client.before
               (Client.println "🔗 Connecting to LangChain MCP server..."
                  :: Client.println "✅ Connected successfully!"
                  :: Client.println (PyStr.newline ++ "🔧 Available LangChain tools:")
                  :: Client.tool_lines tools ++ Client.banner)%list []
               (Client.chat_loop h tools 0 false false events)))).
Proof.
  intros Hopen Hinit Htools. unfold Client.main. rewrite Hopen, Hinit, Htools. reflexivity.
Qed.

(** A call that raises, or that comes back without a text, ends the run,
    wherever in the run it is made: it is the last call, nothing that
    follows in the input is read, and, unless the task was asked to cancel,
    the label is the last thing written before the line that reports the
    error, which holds the text of the exception that leaves the two
    blocks. *)
Theorem console_failed_call_ends_run
        (events : list Client.console_event) (n : nat)
        (tool_name msg : string) (args : Gradio.arguments) :
  nth_error (Client.calls (Client.main h events)) n = Some (tool_name, args) ->
  (Client.call_tool h n tool_name args = Client.CallRaised msg
   \/ exists content,
       Client.call_tool h n tool_name args = Client.Answered content
       /\ Client.first_text content = inl msg) ->
  List.length (Client.calls (Client.main h events)) = S n
  /\ (forall rest, Client.main h (events ++ rest) = Client.main h events)
  /\ (Client.cancelling (Client.main h events) = false ->
      exists body line label,
        In (Client.Typed line) events
        /\ Client.main_step line = Client.CallTool label tool_name args
        /\ Client.stdout (Client.main h events)
           = (body ++ label :: match Client.leave h (Client.Raising msg) with
                               | Client.Raising shown => [Client.error_line shown]
                               | _ => []
                               end)%list).
Proof.
  intros Hn Hfail.
  destruct (Client.open_error h) as [e|] eqn:Hopen.
  { exfalso. unfold Client.main in Hn. rewrite calls_run, calls_report, Hopen in Hn.
    destruct n; discriminate Hn. }
  destruct (Client.initialize_error h) as [e|] eqn:Hinit.
  { exfalso. unfold Client.main in Hn. rewrite calls_run, calls_report, Hopen, Hinit in Hn.
    destruct n; discriminate Hn. }
  destruct (Client.tools_result h) as [e | tools] eqn:Htools.
  { exfalso. unfold Client.main in Hn.
    rewrite calls_run, calls_report, Hopen, Hinit, Htools in Hn.
    destruct n; discriminate Hn. }
  rewrite (calls_main h tools events Hopen Hinit Htools) in *.
  destruct (loop_failed_call tools msg events 0 false false n tool_name args Hn Hfail)
    as [Hlen [Hend Hrest]].
  split; [exact Hlen|]. split.
  - intros rest. rewrite !(main_connected tools) by assumption.
    now rewrite loop_left_reads_no_more.
  - rewrite (main_connected tools) by assumption.
    rewrite cancelling_run, cancelling_report.
    cbn [Client.leaving Client.before Client.cancelling]. intros Hc.
    destruct (Hrest Hc) as [He [body [line [label [Hin [Hstep Hout]]]]]].
    exists ((Client.println "🔗 Connecting to LangChain MCP server..."
               :: Client.println "✅ Connected successfully!"
               :: Client.println (PyStr.newline ++ "🔧 Available LangChain tools:")
               :: Client.tool_lines tools ++ Client.banner) ++ body)%list, line, label.
    split; [exact Hin|]. split; [exact Hstep|].
    unfold Client.run. rewrite cancelling_report.
    cbn [Client.leaving Client.before Client.cancelling]. rewrite Hc.
    unfold Client.report. cbn [Client.leaving Client.before Client.ending]. rewrite He.
    destruct (Client.leave h (Client.Raising msg));
      cbn [Client.stdout Client.leaving Client.before]; rewrite Hout;
      rewrite <- ?app_assoc; cbn [app]; rewrite ?app_nil_r; reflexivity.
Qed.

Lemma loop_skips_idle_lines (tools : list (string * string)) (events : list Client.console_event) :
  forall (made : nat) (cancel waiting waiting' : bool),
    let busy e :=
      match e with
      | Client.Typed line =>
          match Client.main_step line with
          | Client.Skip | Client.ListTools | Client.Usage _ => false
          | _ => true
          end
      | Client.CtrlC => true
      end in
    Client.calls (Client.chat_loop h tools made cancel waiting (filter busy events))
    = Client.calls (Client.chat_loop h tools made cancel waiting' events).
Proof.
  cbv zeta.
  induction events as [|[line|] events IH]; intros made cancel waiting waiting';
    cbn [filter Client.chat_loop].
  - reflexivity.
  - destruct (Client.main_step line) eqn:Hstep; cbn [Client.chat_loop]; rewrite ?Hstep;
      cbn [Client.calls Client.before Client.ended app];
      try reflexivity; try apply IH.
    destruct cancel; [reflexivity|].
    destruct (Client.call_tool h made _ _) as [content | |]; try reflexivity.
    destruct (Client.first_text content); [reflexivity|].
    cbn [Client.calls Client.before app]. now rewrite (IH (S made) false false false).
  - destruct (Client.cancels_on_interrupt h && negb cancel);
      cbn [Client.calls Client.before Client.ended app]; [apply IH | reflexivity].
Qed.

(** Blank lines, the word [tools] and a command without its argument make
    no call: leaving them out of the input changes neither the calls the
    program makes nor whether it ends on an error. *)
Theorem console_idle_lines_make_no_call
        (tools : list (string * string)) (events : list Client.console_event) :
  Client.open_error h = None ->
  Client.initialize_error h = None ->
  Client.tools_result h = inr tools ->
  let busy e :=
    match e with
    | Client.Typed line =>
        match Client.main_step line with
        | Client.Skip | Client.ListTools | Client.Usage _ => false
        | _ => true
        end
    | Client.CtrlC => true
    end in
  Client.calls (Client.main h (filter busy events)) = Client.calls (Client.main h events)
  /\ (forall line,
         PyStr.is_empty (PyStr.strip line) = true -> busy (Client.Typed line) = false)
  /\ (forall line,
         PyStr.lower (PyStr.strip line) = "tools" -> busy (Client.Typed line) = false).
Proof.
  intros Hopen Hinit Htools. cbv zeta.
  split; [|split].
  - rewrite !(calls_main h tools) by assumption.
    exact (loop_skips_idle_lines tools events 0 false false false).
  - intros line Hblank. unfold Client.main_step. cbv zeta.
    rewrite (strip_blank line Hblank). reflexivity.
  - intros line Hword. unfold Client.main_step. cbv zeta. rewrite Hword.
    destruct (PyStr.is_empty (PyStr.strip line)) eqn:E; [|reflexivity].
    rewrite (strip_blank line E) in Hword. discriminate Hword.
Qed.

End ConsoleRuns.

Lemma console_calls_follow_registry_witness :
  exists tool key value,
    In tool Server.tools
    /\ ("calculate", [("expression", "2+2")]) = (Server.name tool, [(key, value)])
    /\ In key (Server.parameters tool)
    /\ PyStr.is_empty value = false.
Proof.
  apply (proj1 (console_calls_follow_registry
                  {| Client.open_error := None;
                     Client.initialize_error := None;
                     Client.tools_result := inr [];
                     Client.call_tool := fun _ _ _ => Client.Answered [Gradio.TextContent "4"];
                     Client.leave := fun f => f;
                     Client.cancels_on_interrupt := true |}
                  [Client.Typed "calc: 2+2"])).
  left. reflexivity.
Defined.



Lemma console_failed_call_ends_run_witness :
  List.length
    (Client.calls
       (Client.main {| Client.open_error := None;
                       Client.initialize_error := None;
                       Client.tools_result := inr [("calculate", "Perform calculations")];
                       Client.call_tool :=
                         fun made _ _ =>
                           match made with
                           | 1%nat => Client.CallRaised "Connection closed"
                           | _ => Client.Answered [Gradio.TextContent "4"]
                           end;
                       Client.leave := fun f => f;
                       Client.cancels_on_interrupt := true |}
                    [Client.Typed "calc: 2+2"; Client.Typed "hello"; Client.Typed "calc: 1"]))
  = 2%nat.
Proof.
  apply (console_failed_call_ends_run
           {| Client.open_error := None;
              Client.initialize_error := None;
              Client.tools_result := inr [("calculate", "Perform calculations")];
              Client.call_tool :=
                fun made _ _ =>
                  match made with
                  | 1%nat => Client.CallRaised "Connection closed"
                  | _ => Client.Answered [Gradio.TextContent "4"]
                  end;
              Client.leave := fun f => f;
              Client.cancels_on_interrupt := true |}
           [Client.Typed "calc: 2+2"; Client.Typed "hello"; Client.Typed "calc: 1"]
           1%nat "chat_with_gemma3" "Connection closed" [("message", "hello")]).
  - reflexivity.
  - left. reflexivity.
Defined.

Lemma console_idle_lines_make_no_call_witness :
  Client.calls
    (Client.main {| Client.open_error := None;
                    Client.initialize_error := None;
                    Client.tools_result := inr [];
                    Client.call_tool := fun _ _ _ => Client.Answered [Gradio.TextContent "4"];
                    Client.leave := fun f => f;
                    Client.cancels_on_interrupt := true |}
                 [Client.Typed "calc: 2+2"])
  = Client.calls
      (Client.main {| Client.open_error := None;
                      Client.initialize_error := None;
                      Client.tools_result := inr [];
                      Client.call_tool := fun _ _ _ => Client.Answered [Gradio.TextContent "4"];
                      Client.leave := fun f => f;
                      Client.cancels_on_interrupt := true |}
                   [Client.Typed "  "; Client.Typed "Tools"; Client.Typed "calc:";
                    Client.Typed "calc: 2+2"]).
Proof.
  apply (console_idle_lines_make_no_call
           {| Client.open_error := None;
              Client.initialize_error := None;
              Client.tools_result := inr [];
              Client.call_tool := fun _ _ _ => Client.Answered [Gradio.TextContent "4"];
              Client.leave := fun f => f;
              Client.cancels_on_interrupt := true |}
           []
           [Client.Typed "  "; Client.Typed "Tools"; Client.Typed "calc:";
            Client.Typed "calc: 2+2"]).
  - reflexivity.
  - reflexivity.
  - reflexivity.
Defined.

(** ** [web_search] *)

Section Search.

Variable search : string -> Server.ddgs.

Lemma take_all (n : nat) (s : string) : (PyStr.len s <= n)%nat -> PyStr.take n s = s.
Proof.
  revert n; induction s as [|c r IH]; intros n; cbn [PyStr.take PyStr.len]; [reflexivity|].
  destruct (PyStr.is_continuation c); intros H.
  - now rewrite IH.
  - destruct n as [|k]; [lia|]. rewrite IH; [reflexivity | lia].
Qed.

Lemma entry_complete (i : Z) (result : Server.hit) (title body href : string) :
  Server.get result "title" = Returned title ->
  Server.get result "body" = Returned body ->
  Server.get result "href" = Returned href ->
  Server.entry i result
  = Returned (PyStr.of_Z i ++ ". " ++ title ++ PyStr.newline
              ++ "   " ++ PyStr.take 200 body ++ "..." ++ PyStr.newline
              ++ "   Source: " ++ href ++ PyStr.newline ++ PyStr.newline).
Proof. intros Ht Hb Hh. unfold Server.entry. rewrite Ht, Hb, Hh. reflexivity. Qed.

(** [s[:n]] has [n] characters, or all those of [s] when there are fewer. *)
Lemma take_len_exact (n : nat) (s : string) :
  PyStr.len (PyStr.take n s) = Nat.min n (PyStr.len s).
Proof.
  revert n; induction s as [|c r IH]; intros n; cbn [PyStr.take PyStr.len].
  - now rewrite Nat.min_0_r.
  - destruct (PyStr.is_continuation c) eqn:Ec.
    + cbn [PyStr.len]. rewrite Ec. apply IH.
    + destruct n as [|k]; [reflexivity|]. cbn [PyStr.len]. rewrite Ec, IH. reflexivity.
Qed.

(** [s[:n]] stops where a character ends: what it leaves of [s] does not
    start in the middle of a character. *)
Lemma take_rest (n : nat) (s : string) :
  exists rest,
    s = PyStr.take n s ++ rest
    /\ match rest with
       | String c _ => PyStr.is_continuation c = false
       | EmptyString => True
       end.
Proof.
  revert n; induction s as [|c r IH]; intros n; cbn [PyStr.take].
  - exists EmptyString. split; [reflexivity | exact I].
  - destruct (PyStr.is_continuation c) eqn:Ec.
    + destruct (IH n) as [rest [Hr Hb]]. exists rest. cbn [append]. now rewrite <- Hr.
    + destruct n as [|k].
      * exists (String c r). split; [reflexivity | exact Ec].
      * destruct (IH k) as [rest [Hr Hb]]. exists rest. cbn [append]. now rewrite <- Hr.
Qed.

(** The snippet shown for a result is the body cut after 200 characters: the
    body up to the end of its 200th character when it has more, the whole
    body when it has not, and in both cases followed by three dots. *)
Theorem web_search_snippet (i : Z) (result : Server.hit) (title body href : string) :
  Server.get result "title" = Returned title ->
  Server.get result "body" = Returned body ->
  Server.get result "href" = Returned href ->
  exists snippet rest,
    Server.entry i result
    = Returned (PyStr.of_Z i ++ ". " ++ title ++ PyStr.newline
                ++ "   " ++ snippet ++ "..." ++ PyStr.newline
                ++ "   Source: " ++ href ++ PyStr.newline ++ PyStr.newline)
    /\ body = snippet ++ rest
    /\ PyStr.len snippet = Nat.min 200 (PyStr.len body)
    /\ match rest with
       | String c _ => PyStr.is_continuation c = false
       | EmptyString => True
       end
    /\ ((200 < PyStr.len body)%nat -> PyStr.len snippet = 200%nat)
    /\ ((PyStr.len body <= 200)%nat -> snippet = body).
Proof.
  intros Ht Hb Hh. destruct (take_rest 200 body) as [rest [Hrest Hbound]].
  exists (PyStr.take 200 body), rest.
  split; [now apply entry_complete|].
  split; [exact Hrest|].
  split; [apply take_len_exact|].
  split; [exact Hbound|].
  split; [|apply take_all].
  intros Hlong. rewrite take_len_exact. lia.
Qed.

Lemma contains_middle (a p b : string) : PyStr.contains (a ++ p ++ b) p = true.
Proof. apply contains_app. now exists a, b. Qed.




Lemma get_outcome (result : Server.hit) (key : string) :
  (exists v, Server.get result key = Returned v)
  \/ Server.get result key = Raised (OtherException ("'" ++ key ++ "'")).
Proof.
  induction result as [|[k v] rest IH]; cbn [Server.get]; [right; reflexivity|].
  destruct (String.eqb k key); [left; eauto | exact IH].
Qed.

Lemma entry_outcome (i : Z) (result : Server.hit) :
  (exists t b u,
      Server.get result "title" = Returned t
      /\ Server.get result "body" = Returned b
      /\ Server.get result "href" = Returned u)
  \/ exists key,
      In key ["title"; "body"; "href"]
      /\ Server.entry i result = Raised (OtherException ("'" ++ key ++ "'")).
Proof.
  unfold Server.entry.
  destruct (get_outcome result "title") as [[t Ht] | Ht]; rewrite Ht; cbn [bind];
    [|right; exists "title"; split; [simpl; tauto | reflexivity]].
  destruct (get_outcome result "body") as [[b Hb] | Hb]; rewrite Hb; cbn [bind];
    [|right; exists "body"; split; [simpl; tauto | reflexivity]].
  destruct (get_outcome result "href") as [[u Hu] | Hu]; rewrite Hu; cbn [bind];
    [|right; exists "href"; split; [simpl; tauto | reflexivity]].
  left. eauto 7.
Qed.

Lemma entries_spoiled (results : list Server.hit) :
  (exists r key, In r results /\ In key ["title"; "body"; "href"]
                 /\ forall v, Server.get r key <> Returned v) ->
  forall i : Z,
  exists key,
    In key ["title"; "body"; "href"]
    /\ Server.entries i results = Raised (OtherException ("'" ++ key ++ "'")).
Proof.
  induction results as [|r0 rest IH]; intros [r [key [Hin [Hkey Hmiss]]]] i; [destruct Hin|].
  cbn [Server.entries].
  destruct (entry_outcome i r0) as [[t [b [u [Ht [Hb Hu]]]]] | [k [Hk Hraise]]].
  - rewrite (entry_complete i r0 _ _ _ Ht Hb Hu). cbn [bind].
    destruct Hin as [<- | Hin].
    + exfalso. destruct Hkey as [<- | [<- | [<- | []]]]; eapply Hmiss; eassumption.
    + destruct (IH (ex_intro _ r (ex_intro _ key (conj Hin (conj Hkey Hmiss)))) (i + 1))
        as [k [Hk ->]].
      exists k. split; [exact Hk | reflexivity].
  - exists k. split; [exact Hk|]. now rewrite Hraise.
Qed.

(** One result that lacks its title, its body or its link spoils the whole
    answer: no result is shown, only a search error that names a missing
    key. *)
Theorem web_search_missing_key (query : string) (results : list Server.hit) :
  search query = Server.Results results ->
  (exists r key, In r results /\ In key ["title"; "body"; "href"]
                 /\ forall v, Server.get r key <> Returned v) ->
  exists key,
    In key ["title"; "body"; "href"]
    /\ Server.web_search search query = "Search error: '" ++ key ++ "'".
Proof.
  intros Hsearch Hbad.
  destruct (entries_spoiled results Hbad 1) as [key [Hkey Hraise]].
  exists key. split; [exact Hkey|].
  unfold Server.web_search. rewrite Hsearch.
  destruct results as [|r0 rest]; [destruct Hbad as [r [k [[] _]]]|].
  now rewrite Hraise.
Qed.

End Search.

Lemma web_search_snippet_witness :
  exists snippet rest,
    Server.entry 1 [("title", "T"); ("href", "H"); ("body", PyStr.times "é" 201)]
    = Returned (PyStr.of_Z 1 ++ ". " ++ "T" ++ PyStr.newline
                ++ "   " ++ snippet ++ "..." ++ PyStr.newline
                ++ "   Source: " ++ "H" ++ PyStr.newline ++ PyStr.newline)
    /\ PyStr.times "é" 201 = snippet ++ rest
    /\ PyStr.len snippet = Nat.min 200 (PyStr.len (PyStr.times "é" 201))
    /\ match rest with
       | String c _ => PyStr.is_continuation c = false
       | EmptyString => True
       end
    /\ ((200 < PyStr.len (PyStr.times "é" 201))%nat -> PyStr.len snippet = 200%nat)
    /\ ((PyStr.len (PyStr.times "é" 201) <= 200)%nat -> snippet = PyStr.times "é" 201).
Proof.
  apply (web_search_snippet 1 [("title", "T"); ("href", "H"); ("body", PyStr.times "é" 201)]
                            "T" (PyStr.times "é" 201) "H").
  - reflexivity.
  - reflexivity.
  - reflexivity.
Defined.


Lemma web_search_missing_key_witness :
  exists key,
    In key ["title"; "body"; "href"]
    /\ Server.web_search
         (fun _ => Server.Results [[("title", "A"); ("body", "a"); ("href", "x")];
                                   [("title", "B"); ("body", "b")]]) "q"
       = "Search error: '" ++ key ++ "'".
Proof.
  apply (web_search_missing_key
           (fun _ => Server.Results [[("title", "A"); ("body", "a"); ("href", "x")];
                                     [("title", "B"); ("body", "b")]])
           "q" [[("title", "A"); ("body", "a"); ("href", "x")];
                [("title", "B"); ("body", "b")]]).
  - reflexivity.
  - exists [("title", "B"); ("body", "b")], "href".
    split; [simpl; tauto|]. split; [simpl; tauto|]. intros v; discriminate.
Defined.

(** ** [chat_with_gemma3] *)

Section ChatTool.

Variable post : Server.request -> Server.posted.
Variable lookup_error : PyJson.json -> string.

(** On a reply with status 200 whose body holds a list of choices, the
    answer is the content of the message of the first choice, whatever else
    the body holds. *)
Theorem chat_returns_first_content
        (message model : string) (r : Server.response)
        (fields choice reply : list (string * PyJson.json))
        (others : list PyJson.json) (content : PyJson.json) :
  post (Server.chat_request message model) = Server.Responded r ->
  Server.status_code r = 200 ->
  Server.json r = Returned (PyJson.JObj fields) ->
  PyJson.field "choices" fields = Some (PyJson.JArr (PyJson.JObj choice :: others)) ->
  PyJson.field "message" choice = Some (PyJson.JObj reply) ->
  PyJson.field "content" reply = Some content ->
  Server.chat_with_gemma3 post lookup_error message model = content.
Proof.
  intros Hpost Hstatus Hjson Hchoices Hmessage Hcontent.
  unfold Server.chat_with_gemma3, Server.first_content.
  rewrite Hpost, Hstatus, Hjson. cbn [Z.eqb Pos.eqb PyJson.item].
  rewrite Hchoices. cbn [PyJson.first PyJson.item]. rewrite Hmessage.
  cbn [PyJson.item]. now rewrite Hcontent.
Qed.

(** Whatever the request meets, [chat_with_gemma3] returns: the content
    found in a reply with status 200, or else a text that starts with
    [Error]; a reply with another status is reported with that status and
    its body, which is not decoded. *)
Theorem chat_reports_every_failure (message model : string) :
  (exists r result,
      post (Server.chat_request message model) = Server.Responded r
      /\ Server.status_code r = 200
      /\ Server.json r = Returned result
      /\ Server.first_content result
         = Some (Server.chat_with_gemma3 post lookup_error message model))
  \/ (exists text,
         Server.chat_with_gemma3 post lookup_error message model = PyJson.JStr text
         /\ PyStr.startswith text "Error" = true
         /\ forall r, post (Server.chat_request message model) = Server.Responded r ->
                      Server.status_code r <> 200 ->
                      text = "Error " ++ PyStr.of_Z (Server.status_code r) ++ ": "
                               ++ Server.text r).
Proof.
  unfold Server.chat_with_gemma3.
  destruct (post (Server.chat_request message model)) as [r | msg] eqn:Hpost.
  - destruct (Z.eqb_spec (Server.status_code r) 200) as [Hs | Hs].
    + destruct (Server.json r) as [result | e] eqn:Hjson.
      * destruct (Server.first_content result) as [content|] eqn:Hc.
        -- left. exists r, result. repeat split; assumption.
        -- right. eexists. split; [reflexivity|]. split.
           ++ apply prefix_app. eexists. reflexivity.
           ++ intros r' [= <-] Hne. congruence.
      * right. eexists. split; [reflexivity|]. split.
        -- apply prefix_app. eexists. reflexivity.
        -- intros r' [= <-] Hne. congruence.
    + right. eexists. split; [reflexivity|]. split.
      * apply prefix_app. eexists. reflexivity.
      * intros r' [= <-] _. reflexivity.
  - right. eexists. split; [reflexivity|]. split.
    + apply prefix_app. eexists. reflexivity.
    + intros r' Hr. discriminate Hr.
Qed.

End ChatTool.

Lemma chat_returns_first_content_witness :
  Server.chat_with_gemma3
    (fun _ =>
       Server.Responded
         {| Server.status_code := 200;
            Server.text := "{}";
            Server.json :=
              Returned
                (PyJson.JObj
                   [("id", PyJson.JStr "1");
                    ("choices",
                     PyJson.JArr
                       [PyJson.JObj
                          [("index", PyJson.JInt 0);
                           ("message",
                            PyJson.JObj [("role", PyJson.JStr "assistant");
                                         ("content", PyJson.JStr "Hello")])]])]) |})
    (fun _ => EmptyString) "hi" Server.default_model
  = PyJson.JStr "Hello".
Proof.
  eapply (chat_returns_first_content _ _ "hi" Server.default_model).
  - reflexivity.
  - reflexivity.
  - reflexivity.
  - reflexivity.
  - reflexivity.
  - reflexivity.
Defined.
